(** * stdp_synapse: the STDP connection of models/stdp_connection.h

    A shallow embedding of [nest::STDPConnection] and the properties of its
    weight update, spike delivery and status dictionary.

    Numbers.  Every [double_t] of the source is read as a real number, the
    way the description of the model does: arithmetic is exact, there is no
    rounding, no overflow, no infinity and no NaN.  [std::exp] is the real
    exponential and [std::pow] is [pow] below.  Where the double arithmetic
    of the source decides a property, the lines in question are also given
    in binary64, on the primitive floats, and evaluated there. *)

From Stdlib Require Import Floats.PrimFloat.
From Stdlib Require Import Reals Lra Lia ZArith List String Sorted.
From stdpp Require Import base gmap strings.

Local Open Scope R_scope.
#[local] Set Warnings "-inexact-float".

(** ** <cmath> on the reals *)

(** [std::pow (x, y)] where its value is a real number:
    - any base to the power 0 is 1;
    - a positive base gives [exp (y * ln x)];
    - base 0 with a positive exponent gives 0;
    - a negative base with an integral exponent gives the integer power.
    The two remaining cases (base 0 with a negative exponent, a pole, and a
    negative base with a fractional exponent, a domain error) have no real
    value in C; the model returns 0 there. *)
Definition pow (x y : R) : R :=
  if Req_dec_T y 0 then 1
  else if Rlt_dec 0 x then Rpower x y
  else if Req_dec_T x 0 then 0
  else if Req_dec_T y (IZR (Int_part y)) then powerRZ x (Int_part y)
  else 0.

(** ** The connection *)

(** Modelled from the spec: the generic connection base of connection.h,
    which is not part of the sources.  Only what its accessors
    [get_delay], [get_delay_steps] and [get_rport] return is kept. *)
Record Connection : Type := mkConnection {
  get_delay : R;
  get_delay_steps : Z;
  get_rport : Z
}.

(** The data members of each connection, in the order of the class. *)
Record STDPConnection : Type := mkSTDPConnection {
  ConnectionBase : Connection;
  weight_ : R;
  tau_plus_ : R;
  lambda_ : R;
  alpha_ : R;
  mu_plus_ : R;
  mu_minus_ : R;
  Wmax_ : R;
  Kplus_ : R
}.

(** [STDPConnection::facilitate_] *)
Definition facilitate_ (c : STDPConnection) (w kplus : R) : R :=
  let norm_w :=
    (w / Wmax_ c) + (lambda_ c * pow (1 - (w / Wmax_ c)) (mu_plus_ c) * kplus) in
  if Rlt_dec norm_w 1 then norm_w * Wmax_ c else Wmax_ c.

(** [STDPConnection::depress_] *)
Definition depress_ (c : STDPConnection) (w kminus : R) : R :=
  let norm_w :=
    (w / Wmax_ c) - (alpha_ c * lambda_ c * pow (w / Wmax_ c) (mu_minus_ c) * kminus) in
  if Rgt_dec norm_w 0 then norm_w * Wmax_ c else 0.

(** [STDPConnection::set_weight] and the other assignments to one data
    member; every other member is kept. *)
Definition set_weight (w : R) (c : STDPConnection) : STDPConnection :=
  mkSTDPConnection (ConnectionBase c) w (tau_plus_ c) (lambda_ c) (alpha_ c)
    (mu_plus_ c) (mu_minus_ c) (Wmax_ c) (Kplus_ c).

Definition set_tau_plus_ (x : R) (c : STDPConnection) : STDPConnection :=
  mkSTDPConnection (ConnectionBase c) (weight_ c) x (lambda_ c) (alpha_ c)
    (mu_plus_ c) (mu_minus_ c) (Wmax_ c) (Kplus_ c).

Definition set_lambda_ (x : R) (c : STDPConnection) : STDPConnection :=
  mkSTDPConnection (ConnectionBase c) (weight_ c) (tau_plus_ c) x (alpha_ c)
    (mu_plus_ c) (mu_minus_ c) (Wmax_ c) (Kplus_ c).

Definition set_alpha_ (x : R) (c : STDPConnection) : STDPConnection :=
  mkSTDPConnection (ConnectionBase c) (weight_ c) (tau_plus_ c) (lambda_ c) x
    (mu_plus_ c) (mu_minus_ c) (Wmax_ c) (Kplus_ c).

Definition set_mu_plus_ (x : R) (c : STDPConnection) : STDPConnection :=
  mkSTDPConnection (ConnectionBase c) (weight_ c) (tau_plus_ c) (lambda_ c)
    (alpha_ c) x (mu_minus_ c) (Wmax_ c) (Kplus_ c).

Definition set_mu_minus_ (x : R) (c : STDPConnection) : STDPConnection :=
  mkSTDPConnection (ConnectionBase c) (weight_ c) (tau_plus_ c) (lambda_ c)
    (alpha_ c) (mu_plus_ c) x (Wmax_ c) (Kplus_ c).

Definition set_Wmax_ (x : R) (c : STDPConnection) : STDPConnection :=
  mkSTDPConnection (ConnectionBase c) (weight_ c) (tau_plus_ c) (lambda_ c)
    (alpha_ c) (mu_plus_ c) (mu_minus_ c) x (Kplus_ c).

Definition set_Kplus_ (x : R) (c : STDPConnection) : STDPConnection :=
  mkSTDPConnection (ConnectionBase c) (weight_ c) (tau_plus_ c) (lambda_ c)
    (alpha_ c) (mu_plus_ c) (mu_minus_ c) (Wmax_ c) x.

Definition set_ConnectionBase (b : Connection) (c : STDPConnection) : STDPConnection :=
  mkSTDPConnection b (weight_ c) (tau_plus_ c) (lambda_ c)
    (alpha_ c) (mu_plus_ c) (mu_minus_ c) (Wmax_ c) (Kplus_ c).

(** The default constructor; [base] is what [ConnectionBase()] builds. *)
Definition STDPConnection_default (base : Connection) : STDPConnection :=
  mkSTDPConnection base 1 20 0.01 1 1 1 100 0.

(** The copy constructor copies the base and every data member. *)
Definition STDPConnection_copy (rhs : STDPConnection) : STDPConnection :=
  mkSTDPConnection (ConnectionBase rhs) (weight_ rhs) (tau_plus_ rhs)
    (lambda_ rhs) (alpha_ rhs) (mu_plus_ rhs) (mu_minus_ rhs) (Wmax_ rhs)
    (Kplus_ rhs).

(** ** Methods that change the object or raise

    A method is a function from the object before the call to the object
    after it and the outcome of the call.  When an exception leaves the
    method, the object is shown as the exception left it. *)

Inductive outcome (A : Type) : Type :=
| Returns (a : A)
| Throws.
Arguments Returns {A} a.
Arguments Throws {A}.

Definition M (A : Type) : Type := STDPConnection -> STDPConnection * outcome A.

Definition ret {A : Type} (a : A) : M A := fun c => (c, Returns a).

Definition bind {A B : Type} (m : M A) (k : A -> M B) : M B :=
  fun c =>
    match m c with
    | (c', Returns a) => k a c'
    | (c', Throws) => (c', Throws)
    end.

Notation "m >> k" := (bind m (fun _ => k))
  (at level 62, right associativity).

(** The object after the call, whatever the outcome. *)
Definition after {A : Type} (m : M A) (c : STDPConnection) : STDPConnection :=
  fst (m c).

(** ** Status dictionaries *)

(** The values this class stores in a dictionary: [def< double_t >] stores
    a double, [def< long_t >] an integer. *)
Inductive Token : Type :=
| DoubleDatum (x : R)
| IntegerDatum (n : Z).

Abbreviation Dictionary := (gmap string Token).

(** Modelled from the spec: the two entries of names.h used here, which is
    not part of the sources; the keys are [weight] and [size_of]. *)
Definition names_weight : string := "weight".
Definition names_size_of : string := "size_of".

(** Modelled from the spec: [def] of dictutils.h, which is not part of the
    sources: the entry [n] of [d] is set to the value given. *)
Definition def (d : Dictionary) (n : string) (v : Token) : Dictionary :=
  <[n := v]> d.

(** Modelled from the spec: [updateValue< double_t >] of dictutils.h, which
    is not part of the sources: a key that is present overwrites the member,
    a key that is absent leaves it as it is.  An entry that does not hold a
    double cannot be read as one: the call raises. *)
Definition updateValue (d : Dictionary) (n : string)
    (assign : R -> STDPConnection -> STDPConnection) : M bool :=
  fun c =>
    match d !! n with
    | None => (c, Returns false)
    | Some (DoubleDatum x) => (assign x c, Returns true)
    | Some (IntegerDatum _) => (c, Throws)
    end.

(** ** The target neuron and the event *)

(** An entry of the spike history of the target: the time of a
    post-synaptic spike and the access counter the target keeps for it. *)
Record histentry : Type := mkhistentry {
  t_ : R;
  access_counter_ : nat
}.

(** Modelled from the spec: the target neuron as history provider (its class
    is not part of the sources).  [get_history target t1 t2] is the range
    from [start] to [finish] that [get_history (t1, t2, &start, &finish)] of
    the target hands out, and [get_K_value] is the post-synaptic trace
    decayed to a point in time.  The access counters the target increments
    are its own business and are left out. *)
Record Node : Type := mkNode {
  get_history : R -> R -> list histentry;
  get_K_value : R -> R
}.

Definition in_window (t1 t2 : R) (h : histentry) : bool :=
  if Rlt_dec t1 (t_ h) then (if Rle_dec (t_ h) t2 then true else false)
  else false.

(** Modelled from the spec: the window a target hands out when it compares
    exactly: the entries of its history whose time lies in the half-open
    interval (t1, t2], in the order of the history. *)
Definition windowed (history : list histentry) (t1 t2 : R) : list histentry :=
  List.filter (in_window t1 t2) history.

(** The test of the window and [minus_dt] of [send] in binary64: what the
    double arithmetic of the source computes for them. *)
Definition in_window64 (t1 t2 t : float) : bool :=
  andb (PrimFloat.ltb t1 t) (PrimFloat.leb t t2).

Definition minus_dt64 (t_lastspike t dendritic_delay : float) : float :=
  PrimFloat.sub t_lastspike (PrimFloat.add t dendritic_delay).

(** The last assignment of [send] in binary64; [exp64] stands for
    [std::exp] on doubles. *)
Definition Kplus64 (exp64 : float -> float)
    (Kplus t_lastspike t_spike tau_plus : float) : float :=
  PrimFloat.add
    (PrimFloat.mul Kplus
       (exp64 (PrimFloat.div (PrimFloat.sub t_lastspike t_spike) tau_plus)))
    1%float.

(** What [std::exp] does above the largest exponent a double can hold:
    from 710 on the result overflows to infinity. *)
Definition overflows (exp64 : float -> float) : Prop :=
  forall x : float, PrimFloat.leb 710%float x = true -> exp64 x = infinity.

(** Modelled from the spec: the spike event (event.h is not part of the
    sources): its time stamp in ms and what [send] sets on it. *)
Record Event : Type := mkEvent {
  get_stamp_ms : R;
  receiver : option Node;
  weight : R;
  delay : Z;
  rport : Z
}.

(** ** Delivery *)

(** The facilitation loop of [send] over the iterator range
    [start .. finish).  One iteration reads the entry under [start],
    advances [start], and either goes on (when [minus_dt == 0]) or
    assigns the facilitated weight. *)
Fixpoint facilitation (t_lastspike dendritic_delay : R)
    (range : list histentry) (c : STDPConnection) : STDPConnection :=
  match range with
  | [] => c
  | start :: range' =>
      let minus_dt := t_lastspike - (t_ start + dendritic_delay) in
      if Req_dec_T minus_dt 0
      then facilitation t_lastspike dendritic_delay range' c
      else facilitation t_lastspike dendritic_delay range'
             (set_weight
                (facilitate_ c (weight_ c) (Kplus_ c * exp (minus_dt / tau_plus_ c)))
                c)
  end.

(** [STDPConnection::send].  [target] is the node [get_target( t )] gives,
    as it is at the time of the call.  The result is the connection after
    the call and the event as it was delivered by [e()]. *)
Definition send (e : Event) (target : Node) (t_lastspike : R) : M Event :=
  fun c =>
    let t_spike := get_stamp_ms e in
    let dendritic_delay := get_delay (ConnectionBase c) in
    let range :=
      get_history target (t_lastspike - dendritic_delay) (t_spike - dendritic_delay) in
    let c := facilitation t_lastspike dendritic_delay range c in
    let c :=
      set_weight
        (depress_ c (weight_ c) (get_K_value target (t_spike - dendritic_delay))) c in
    let e :=
      mkEvent (get_stamp_ms e) (Some target) (weight_ c)
        (get_delay_steps (ConnectionBase c)) (get_rport (ConnectionBase c)) in
    let c :=
      set_Kplus_ (Kplus_ c * exp ((t_lastspike - t_spike) / tau_plus_ c) + 1) c in
    (c, Returns e).

(** ** The update rule in the words of the description

    The two functions of the weight update rule as the description of the
    model writes them, over the parameters they name; the theorems compare
    them with [facilitate_] and [depress_]. *)

Definition facilitate_spec (Wmax lambda mu_plus w k : R) : R :=
  let nw := w / Wmax + lambda * pow (1 - w / Wmax) mu_plus * k in
  if Rlt_dec nw 1 then nw * Wmax else Wmax.

Definition depress_spec (Wmax lambda alpha mu_minus w k : R) : R :=
  let nw := w / Wmax - alpha * lambda * pow (w / Wmax) mu_minus * k in
  if Rgt_dec nw 0 then nw * Wmax else 0.

(** The contribution of one history entry to the facilitation: the trace
    decayed over [minus_dt]. *)
Definition minus_dt_of (t_lastspike dendritic_delay : R) (h : histentry) : R :=
  t_lastspike - (t_ h + dendritic_delay).

Definition facilitate_step (c : STDPConnection) (t_lastspike dendritic_delay : R)
    (w : R) (h : histentry) : R :=
  facilitate_ c w
    (Kplus_ c * exp (minus_dt_of t_lastspike dendritic_delay h / tau_plus_ c)).

Definition coincident (t_lastspike dendritic_delay : R) (h : histentry) : bool :=
  if Req_dec_T (minus_dt_of t_lastspike dendritic_delay h) 0 then true else false.

(** A connection fresh from the default constructor, with a delay of 1 ms,
    and a second one that differs from it in the trace only. *)
Definition base1 : Connection := mkConnection 1 10 0.
Definition fresh : STDPConnection := STDPConnection_default base1.
Definition traced : STDPConnection := set_Kplus_ 1 fresh.

(** A target that has not fired and whose trace is zero, a target with
    three recorded spikes and a trace of 0.2, and spike events at 10 ms and
    at 30 ms. *)
Definition quiet : Node := mkNode (windowed []) (fun _ => 0).
Definition active : Node :=
  mkNode (windowed [mkhistentry 5 0; mkhistentry 25 0; mkhistentry 40 0])
    (fun _ => 0.2).
Definition spike_at (t : R) : Event := mkEvent t None 0 0 0.

(** A connection base whose [set_status] changes nothing and returns. *)
Definition keep_base (d : Dictionary) (cm : unit) (b : Connection) :
    Connection * outcome unit :=
  (b, Returns tt).

Section Status.

(** What the class takes from its base and from the C++ implementation:
    [sizeof( *this )], and [get_status] and [set_status] of the connection
    base, which see the base only.  [Connection_set_status] gives the base
    after the call and tells whether the call returned. *)
Variable sizeof_this : Z.
Variable Connection_get_status : Connection -> Dictionary -> Dictionary.
Variable ConnectorModel : Type.
Variable Connection_set_status :
  Dictionary -> ConnectorModel -> Connection -> Connection * outcome unit.

(** [STDPConnection::get_status]: a [const] method, the object is read
    only. *)
Definition get_status (d : Dictionary) : M Dictionary :=
  fun c =>
    let d := Connection_get_status (ConnectionBase c) d in
    let d := def d names_weight (DoubleDatum (weight_ c)) in
    let d := def d "tau_plus" (DoubleDatum (tau_plus_ c)) in
    let d := def d "lambda" (DoubleDatum (lambda_ c)) in
    let d := def d "alpha" (DoubleDatum (alpha_ c)) in
    let d := def d "mu_plus" (DoubleDatum (mu_plus_ c)) in
    let d := def d "mu_minus" (DoubleDatum (mu_minus_ c)) in
    let d := def d "Wmax" (DoubleDatum (Wmax_ c)) in
    let d := def d names_size_of (IntegerDatum sizeof_this) in
    (c, Returns d).

(** [ConnectionBase::set_status( d, cm )] run on the base part. *)
Definition ConnectionBase_set_status (d : Dictionary) (cm : ConnectorModel) : M unit :=
  fun c =>
    let (b, r) := Connection_set_status d cm (ConnectionBase c) in
    (set_ConnectionBase b c, r).

(** [STDPConnection::set_status] *)
Definition set_status (d : Dictionary) (cm : ConnectorModel) : M unit :=
  ConnectionBase_set_status d cm >>
  updateValue d names_weight set_weight >>
  updateValue d "tau_plus" set_tau_plus_ >>
  updateValue d "lambda" set_lambda_ >>
  updateValue d "alpha" set_alpha_ >>
  updateValue d "mu_plus" set_mu_plus_ >>
  updateValue d "mu_minus" set_mu_minus_ >>
  updateValue d "Wmax" set_Wmax_ >>
  ret tt.

(** ** Runs of a connection *)

(** The calls that change a connection after its construction. *)
Inductive operation : Type :=
| call_set_status (d : Dictionary) (cm : ConnectorModel)
| call_set_weight (w : R)
| call_send (e : Event) (target : Node) (t_lastspike : R).

Definition perform (c : STDPConnection) (o : operation) : STDPConnection :=
  match o with
  | call_set_status d cm => after (set_status d cm) c
  | call_set_weight w => set_weight w c
  | call_send e target t_lastspike => after (send e target t_lastspike) c
  end.

(** The connection after a sequence of calls, first call first. *)
Definition run (ops : list operation) (c : STDPConnection) : STDPConnection :=
  fold_left perform ops c.

(** A method keeps an observation [f] of the object when the object after
    the call shows what it showed before, whatever the outcome. *)
Definition keeps {A B : Type} (f : STDPConnection -> B) (m : M A) : Prop :=
  forall c : STDPConnection, f (after m c) = f c.

(** The dictionary [get_status] hands back. *)
Definition exported (d : Dictionary) (c : STDPConnection) : Dictionary :=
  match snd (get_status d c) with
  | Returns d' => d'
  | Throws => d
  end.

(** ** Further notions used by the properties below *)

(** The six parameters of the rule, as [get_status] lists them. *)
Definition parameters (c : STDPConnection) : R * R * R * R * R * R :=
  (tau_plus_ c, lambda_ c, alpha_ c, mu_plus_ c, mu_minus_ c, Wmax_ c).

(** The entry [n] of [d] can be read by [updateValue< double_t >]: it is
    absent or it holds a double. *)
Definition readable (d : Dictionary) (n : string) : Prop :=
  forall z : Z, d !! n <> Some (IntegerDatum z).

(** The value of a member after [updateValue< double_t >( d, n, member )]
    on a readable entry: the double under [n], or the old value. *)
Definition updated (d : Dictionary) (n : string) (old : R) : R :=
  match d !! n with
  | Some (DoubleDatum x) => x
  | _ => old
  end.

(** The keys [set_status] reads, in the order it reads them. *)
Definition status_keys : list string :=
  [names_weight; "tau_plus"; "lambda"; "alpha"; "mu_plus"; "mu_minus"; "Wmax"].

(** A call that is not [set_status]. *)
Definition keeps_status (o : operation) : Prop :=
  match o with
  | call_set_status _ _ => False
  | _ => True
  end.

(** A delivery for which the target of the event supplies a trace that is
    not negative, for a connection with dendritic delay [d]. *)
Definition supplied_send (d : R) (o : operation) : Prop :=
  match o with
  | call_send e target _ => 0 <= get_K_value target (get_stamp_ms e - d)
  | _ => False
  end.

(** A call made in time: a delivery finds [tau_plus > 0] and a time stamp
    that is not before [t_lastspike]; the other calls are always in time. *)
Definition timely (c : STDPConnection) (o : operation) : Prop :=
  match o with
  | call_send e _ t_lastspike => 0 < tau_plus_ c /\ t_lastspike <= get_stamp_ms e
  | _ => True
  end.

(** A sequence of calls, each made in time in the state it finds. *)
Fixpoint well_timed (ops : list operation) (c : STDPConnection) : Prop :=
  match ops with
  | [] => True
  | o :: ops' => timely c o /\ well_timed ops' (perform c o)
  end.

(** A connection with a delay of 0.4 ms and a trace of 1, and a target that
    compares in double precision: for the window of a delivery with
    [t_lastspike] at 0.5 ms it hands out its spike recorded at 0.1 ms,
    because [0.5 - 0.4] is 0.09999999999999998 in binary64. *)
Definition short_delay : STDPConnection :=
  set_Kplus_ 1 (STDPConnection_default (mkConnection 0.4 4 0)).
Definition rounding : Node := mkNode (fun _ _ => [mkhistentry 0.1 0]) (fun _ => 0).

(** A target with five recorded spikes and a trace of 0.2. *)
Definition busy : Node :=
  mkNode
    (windowed [mkhistentry 5 0; mkhistentry 12 0; mkhistentry 25 0;
               mkhistentry 27 0; mkhistentry 40 0])
    (fun _ => 0.2).

(** Instances for the properties below: a base whose [set_status] raises,
    and a dictionary that holds a new step size only. *)
Definition refuse_base (d : Dictionary) (cm : unit) (b : Connection) :
    Connection * outcome unit :=
  (b, Throws).

Definition lambda_only : Dictionary := {[ "lambda" := DoubleDatum 0.02 ]}.

(** ** Auxiliary facts *)

Lemma pow_nonneg (x y : R) : 0 <= x -> 0 <= pow x y.
Proof.
  intros Hx. unfold pow.
  destruct (Req_dec_T y 0); [lra|].
  destruct (Rlt_dec 0 x).
  - left. unfold Rpower. apply exp_pos.
  - destruct (Req_dec_T x 0); lra.
Qed.

Lemma pow_0_r (x : R) : pow x 0 = 1.
Proof. unfold pow. destruct (Req_dec_T 0 0); [reflexivity|lra]. Qed.

Lemma pow_1_r (x : R) : pow x 1 = x.
Proof.
  unfold pow.
  destruct (Req_dec_T 1 0); [lra|].
  destruct (Rlt_dec 0 x); [apply Rpower_1; assumption|].
  destruct (Req_dec_T x 0); [lra|].
  assert (H1 : Int_part 1 = 1%Z).
  { symmetry. apply Int_part_spec. simpl. lra. }
  rewrite H1.
  destruct (Req_dec_T 1 1); [|lra].
  simpl. lra.
Qed.

Lemma normalised_weight (Wmax w : R) :
  0 < Wmax -> 0 <= w <= Wmax -> 0 <= w / Wmax <= 1.
Proof.
  intros HW [H0 H1].
  assert (Hw : w = w / Wmax * Wmax) by (field; lra).
  split; nra.
Qed.

(** Facilitation of a weight within the bounds, by a non-negative trace,
    stays within the bounds. *)
Lemma facilitate_bounds (c : STDPConnection) (w k : R) :
  0 < Wmax_ c -> 0 <= lambda_ c -> 0 <= w <= Wmax_ c -> 0 <= k ->
  0 <= facilitate_ c w k <= Wmax_ c.
Proof.
  intros HW Hl Hw Hk.
  destruct (normalised_weight _ _ HW Hw) as [Hx0 Hx1].
  assert (Hp : 0 <= pow (1 - w / Wmax_ c) (mu_plus_ c)) by (apply pow_nonneg; lra).
  assert (Hlp : 0 <= lambda_ c * pow (1 - w / Wmax_ c) (mu_plus_ c) * k).
  { apply Rmult_le_pos; [apply Rmult_le_pos|]; assumption. }
  unfold facilitate_.
  destruct (Rlt_dec _ 1) as [Hlt|Hge]; [|lra].
  split; nra.
Qed.

(** Depression of a weight within the bounds, by a non-negative trace,
    stays within the bounds. *)
Lemma depress_bounds (c : STDPConnection) (w k : R) :
  0 < Wmax_ c -> 0 <= lambda_ c -> 0 <= alpha_ c -> 0 <= w <= Wmax_ c -> 0 <= k ->
  0 <= depress_ c w k <= Wmax_ c.
Proof.
  intros HW Hl Ha Hw Hk.
  destruct (normalised_weight _ _ HW Hw) as [Hx0 Hx1].
  assert (Hp : 0 <= pow (w / Wmax_ c) (mu_minus_ c)) by (apply pow_nonneg; lra).
  assert (Hlp : 0 <= alpha_ c * lambda_ c * pow (w / Wmax_ c) (mu_minus_ c) * k).
  { repeat apply Rmult_le_pos; assumption. }
  unfold depress_.
  destruct (Rgt_dec _ 0) as [Hgt|Hle]; [|lra].
  split; nra.
Qed.

(** With a zero trace the clamps are all that can change a weight: above
    [Wmax] facilitation cuts it down to [Wmax], below 0 depression raises it
    to 0. *)
Lemma zero_trace_outside (c : STDPConnection) (w : R) :
  0 < Wmax_ c ->
  (Wmax_ c < w -> facilitate_ c w 0 = Wmax_ c) /\ (w < 0 -> depress_ c w 0 = 0).
Proof.
  intros HW.
  assert (Hw : w = w / Wmax_ c * Wmax_ c) by (field; lra).
  split; intros H.
  - unfold facilitate_. rewrite Rmult_0_r, Rplus_0_r.
    destruct (Rlt_dec (w / Wmax_ c) 1) as [Hlt|Hge]; [nra|reflexivity].
  - unfold depress_. rewrite Rmult_0_r, Rminus_0_r.
    destruct (Rgt_dec (w / Wmax_ c) 0) as [Hgt|Hle]; [nra|reflexivity].
Qed.

Lemma STDPConnection_copy_same (rhs : STDPConnection) : STDPConnection_copy rhs = rhs.
Proof. destruct rhs; reflexivity. Qed.

Lemma set_weight_same (c : STDPConnection) : set_weight (weight_ c) c = c.
Proof. destruct c; reflexivity. Qed.

(** The loop of [send] assigns the weight only, and the weight it leaves is
    the fold of the facilitation step over the entries that are not
    coincident, in the order of the range. *)
Lemma facilitation_fold (t_lastspike d : R) (range : list histentry) :
  forall c : STDPConnection,
  facilitation t_lastspike d range c
  = set_weight
      (fold_left (facilitate_step c t_lastspike d)
         (List.filter (fun h => negb (coincident t_lastspike d h)) range)
         (weight_ c))
      c.
Proof.
  induction range as [|h range IH]; intros c; simpl.
  - symmetry. apply set_weight_same.
  - unfold coincident, minus_dt_of.
    destruct (Req_dec_T (t_lastspike - (t_ h + d)) 0) as [Heq|Hne]; simpl.
    + apply IH.
    + rewrite IH. reflexivity.
Qed.

Lemma fold_facilitate_bounds (c : STDPConnection) (t_lastspike d : R)
    (l : list histentry) :
  0 < Wmax_ c -> 0 <= lambda_ c -> 0 <= Kplus_ c ->
  forall w : R, 0 <= w <= Wmax_ c ->
  0 <= fold_left (facilitate_step c t_lastspike d) l w <= Wmax_ c.
Proof.
  intros HW Hl HK.
  induction l as [|h l IH]; intros w Hw; simpl; [assumption|].
  apply IH. unfold facilitate_step.
  apply facilitate_bounds; try assumption.
  apply Rmult_le_pos; [assumption|]. left. apply exp_pos.
Qed.

(** One delivery from a state within the bounds: the general form, for a
    connection whose trace is not negative. *)
Lemma send_weight_bounds (e : Event) (target : Node) (t_lastspike : R)
    (c : STDPConnection) :
  0 < Wmax_ c -> 0 <= lambda_ c -> 0 <= alpha_ c -> 0 <= Kplus_ c ->
  0 <= weight_ c <= Wmax_ c ->
  0 <= get_K_value target (get_stamp_ms e - get_delay (ConnectionBase c)) ->
  0 <= weight_ (after (send e target t_lastspike) c) <= Wmax_ c.
Proof.
  intros HW Hl Ha HK Hw Hk.
  unfold after, send. cbn [fst]. rewrite facilitation_fold. simpl.
  apply (depress_bounds
           (set_weight
              (fold_left (facilitate_step c t_lastspike (get_delay (ConnectionBase c)))
                 (List.filter
                    (fun h => negb (coincident t_lastspike (get_delay (ConnectionBase c)) h))
                    (get_history target (t_lastspike - get_delay (ConnectionBase c))
                       (get_stamp_ms e - get_delay (ConnectionBase c))))
                 (weight_ c)) c)); simpl; try assumption.
  apply fold_facilitate_bounds; assumption.
Qed.

Lemma keeps_ret {A B : Type} (f : STDPConnection -> B) (a : A) : keeps f (ret a).
Proof. intros c. reflexivity. Qed.

Lemma keeps_bind {A B C : Type} (f : STDPConnection -> C) (m : M A) (k : A -> M B) :
  keeps f m -> (forall a, keeps f (k a)) -> keeps f (bind m k).
Proof.
  intros Hm Hk c. specialize (Hm c). unfold after, bind in *.
  destruct (m c) as [c' [a|]]; simpl in *.
  - rewrite <- Hm. apply Hk.
  - assumption.
Qed.

Lemma keeps_updateValue {B : Type} (f : STDPConnection -> B) (d : Dictionary)
    (n : string) (assign : R -> STDPConnection -> STDPConnection) :
  (forall x c, f (assign x c) = f c) -> keeps f (updateValue d n assign).
Proof.
  intros Ha c. unfold after, updateValue.
  destruct (d !! n) as [[x|z]|]; simpl; auto.
Qed.

Lemma keeps_ConnectionBase_set_status {B : Type} (f : STDPConnection -> B)
    (d : Dictionary) (cm : ConnectorModel) :
  (forall b c, f (set_ConnectionBase b c) = f c) ->
  keeps f (ConnectionBase_set_status d cm).
Proof.
  intros Hb c. unfold after, ConnectionBase_set_status.
  destruct (Connection_set_status d cm (ConnectionBase c)) as [b r]; simpl.
  apply Hb.
Qed.

(** [set_status] has no access to the trace. *)
Lemma set_status_keeps_Kplus (d : Dictionary) (cm : ConnectorModel) :
  keeps Kplus_ (set_status d cm).
Proof.
  unfold set_status.
  repeat (apply keeps_bind; [|intros ?]);
    first [ apply keeps_ConnectionBase_set_status; reflexivity
          | apply keeps_updateValue; reflexivity
          | apply keeps_ret ].
Qed.

(** What [send] leaves in the trace. *)
Lemma send_Kplus (e : Event) (target : Node) (t_lastspike : R) (c : STDPConnection) :
  Kplus_ (after (send e target t_lastspike) c)
  = Kplus_ c * exp ((t_lastspike - get_stamp_ms e) / tau_plus_ c) + 1.
Proof.
  unfold after, send. cbn [fst]. rewrite facilitation_fold. reflexivity.
Qed.

Lemma send_Kplus_ge_1 (e : Event) (target : Node) (t_lastspike : R) (c : STDPConnection) :
  0 <= Kplus_ c -> 1 <= Kplus_ (after (send e target t_lastspike) c).
Proof.
  intros HK. rewrite send_Kplus.
  pose proof (exp_pos ((t_lastspike - get_stamp_ms e) / tau_plus_ c)) as He.
  nra.
Qed.

Lemma perform_Kplus_nonneg (c : STDPConnection) (o : operation) :
  0 <= Kplus_ c -> 0 <= Kplus_ (perform c o).
Proof.
  intros HK. destruct o as [d cm|w|e target tl]; cbn [perform].
  - rewrite set_status_keeps_Kplus. assumption.
  - assumption.
  - pose proof (send_Kplus_ge_1 e target tl c HK). lra.
Qed.

(** The trace of a connection that was built by the default constructor is
    never negative. *)
Lemma run_Kplus_nonneg (ops : list operation) :
  forall c : STDPConnection, 0 <= Kplus_ c -> 0 <= Kplus_ (run ops c).
Proof.
  unfold run.
  induction ops as [|o ops IH]; intros c HK; simpl; [assumption|].
  apply IH. apply perform_Kplus_nonneg. assumption.
Qed.

(** A lookup in the dictionary handed back: the entry written last under
    that key. *)
Ltac exported_lookup :=
  unfold exported, get_status, def, names_weight, names_size_of; simpl;
  by simplify_map_eq.

Lemma get_status_returns (d : Dictionary) (c : STDPConnection) :
  get_status d c = (c, Returns (exported d c)).
Proof. reflexivity. Qed.

Lemma exported_weight (d : Dictionary) (c : STDPConnection) :
  exported d c !! names_weight = Some (DoubleDatum (weight_ c)).
Proof. exported_lookup. Qed.

Lemma exported_tau_plus (d : Dictionary) (c : STDPConnection) :
  exported d c !! "tau_plus" = Some (DoubleDatum (tau_plus_ c)).
Proof. exported_lookup. Qed.

Lemma exported_lambda (d : Dictionary) (c : STDPConnection) :
  exported d c !! "lambda" = Some (DoubleDatum (lambda_ c)).
Proof. exported_lookup. Qed.

Lemma exported_alpha (d : Dictionary) (c : STDPConnection) :
  exported d c !! "alpha" = Some (DoubleDatum (alpha_ c)).
Proof. exported_lookup. Qed.

Lemma exported_mu_plus (d : Dictionary) (c : STDPConnection) :
  exported d c !! "mu_plus" = Some (DoubleDatum (mu_plus_ c)).
Proof. exported_lookup. Qed.

Lemma exported_mu_minus (d : Dictionary) (c : STDPConnection) :
  exported d c !! "mu_minus" = Some (DoubleDatum (mu_minus_ c)).
Proof. exported_lookup. Qed.

Lemma exported_Wmax (d : Dictionary) (c : STDPConnection) :
  exported d c !! "Wmax" = Some (DoubleDatum (Wmax_ c)).
Proof. exported_lookup. Qed.

Lemma exported_size_of (d : Dictionary) (c : STDPConnection) :
  exported d c !! names_size_of = Some (IntegerDatum sizeof_this).
Proof. exported_lookup. Qed.

Lemma updateValue_present (d : Dictionary) (n : string)
    (assign : R -> STDPConnection -> STDPConnection) (x : R) (c : STDPConnection) :
  d !! n = Some (DoubleDatum x) -> updateValue d n assign c = (assign x c, Returns true).
Proof. intros H. unfold updateValue. rewrite H. reflexivity. Qed.

Lemma facilitation_app (t_lastspike d : R) (l1 l2 : list histentry) :
  forall c : STDPConnection,
  facilitation t_lastspike d (l1 ++ l2) c
  = facilitation t_lastspike d l2 (facilitation t_lastspike d l1 c).
Proof.
  induction l1 as [|h l1 IH]; intros c; simpl; [reflexivity|].
  destruct (Req_dec_T _ 0); apply IH.
Qed.

Lemma windowed_In (history : list histentry) (t1 t2 : R) (h : histentry) :
  In h (windowed history t1 t2) <-> In h history /\ t1 < t_ h <= t2.
Proof.
  unfold windowed. rewrite filter_In. unfold in_window.
  destruct (Rlt_dec t1 (t_ h)); [destruct (Rle_dec (t_ h) t2)|];
    intuition (try discriminate; try lra).
Qed.

Lemma filter_keeps_all {A : Type} (p : A -> bool) (l : list A) :
  (forall x, In x l -> p x = true) -> List.filter p l = l.
Proof.
  induction l as [|a l IH]; intros H; simpl; [reflexivity|].
  rewrite (H a (or_introl eq_refl)). f_equal. apply IH.
  intros x Hx. apply H. right. assumption.
Qed.

Lemma filter_sorted_times (p : histentry -> bool) (l : list histentry) :
  StronglySorted Rle (map t_ l) -> StronglySorted Rle (map t_ (List.filter p l)).
Proof.
  induction l as [|a l IH]; simpl; intros H; [constructor|].
  apply StronglySorted_inv in H as [Hl Ha].
  destruct (p a); simpl; [|apply IH; assumption].
  constructor; [apply IH; assumption|].
  rewrite List.Forall_forall in *. intros x Hx.
  apply Ha. apply in_map_iff in Hx as [y [Hy Hin]].
  apply in_map_iff. exists y. split; [assumption|].
  apply filter_In in Hin. tauto.
Qed.

(** In exact arithmetic no entry of the window is coincident: its time
    lies after [t_lastspike - dendritic_delay]. *)
Lemma windowed_not_coincident (history : list histentry) (t_lastspike d t2 : R)
    (h : histentry) :
  In h (windowed history (t_lastspike - d) t2) ->
  negb (coincident t_lastspike d h) = true.
Proof.
  intros H. apply windowed_In in H as [_ [Hlt _]].
  unfold coincident, minus_dt_of.
  destruct (Req_dec_T _ 0); [lra|reflexivity].
Qed.

(** ** The weight update rule *)

(** C3: with [Wmax > 0], [facilitate_ (w, k)] is the function of the
    description: it computes [nw = w/Wmax + lambda * (1 - w/Wmax)^mu_plus * k]
    and returns [nw * Wmax] when [nw < 1] and [Wmax] otherwise, that is as
    soon as [1 <= nw]. *)
Theorem facilitate_computes (c : STDPConnection) (w k : R) :
  0 < Wmax_ c ->
  let nw := w / Wmax_ c + lambda_ c * pow (1 - w / Wmax_ c) (mu_plus_ c) * k in
  facilitate_ c w k = facilitate_spec (Wmax_ c) (lambda_ c) (mu_plus_ c) w k
  /\ (nw < 1 -> facilitate_ c w k = nw * Wmax_ c)
  /\ (1 <= nw -> facilitate_ c w k = Wmax_ c).
Proof.
  intros _ nw. split; [reflexivity|].
  unfold facilitate_. fold nw.
  destruct (Rlt_dec nw 1) as [Hlt|Hge]; split; intros H; try reflexivity; lra.
Qed.

(** C4: with [Wmax > 0], [depress_ (w, k)] is the function of the
    description: it computes [nw = w/Wmax - alpha * lambda * (w/Wmax)^mu_minus * k]
    and returns [nw * Wmax] when [nw > 0] and [0] otherwise, that is as soon
    as [nw <= 0]. *)
Theorem depress_computes (c : STDPConnection) (w k : R) :
  0 < Wmax_ c ->
  let nw := w / Wmax_ c - alpha_ c * lambda_ c * pow (w / Wmax_ c) (mu_minus_ c) * k in
  depress_ c w k = depress_spec (Wmax_ c) (lambda_ c) (alpha_ c) (mu_minus_ c) w k
  /\ (nw > 0 -> depress_ c w k = nw * Wmax_ c)
  /\ (nw <= 0 -> depress_ c w k = 0).
Proof.
  intros _ nw. split; [reflexivity|].
  unfold depress_. fold nw.
  destruct (Rgt_dec nw 0) as [Hgt|Hle]; split; intros H; try reflexivity; lra.
Qed.

(** C9, as amended: with [Wmax > 0], exponents that are not negative, a
    depression step [alpha * lambda] of at most 1 in size and a weight in
    [0, Wmax], a zero trace makes the plasticity term vanish:
    [facilitate_ (w, 0)] is [(w / Wmax) * Wmax] when [w / Wmax < 1] and
    [Wmax] otherwise, and [depress_ (w, 0)] is [(w / Wmax) * Wmax] when
    [w / Wmax > 0] and 0 otherwise. *)
Theorem zero_trace_renormalises (c : STDPConnection) (w : R) :
  0 < Wmax_ c -> 0 <= mu_plus_ c -> 0 <= mu_minus_ c ->
  Rabs (alpha_ c * lambda_ c) <= 1 ->
  0 <= w <= Wmax_ c ->
  facilitate_ c w 0
  = (if Rlt_dec (w / Wmax_ c) 1 then w / Wmax_ c * Wmax_ c else Wmax_ c)
  /\ depress_ c w 0
     = (if Rgt_dec (w / Wmax_ c) 0 then w / Wmax_ c * Wmax_ c else 0).
Proof.
  intros _ _ _ _ _. split.
  - unfold facilitate_. rewrite Rmult_0_r, Rplus_0_r. reflexivity.
  - unfold depress_. rewrite Rmult_0_r, Rminus_0_r. reflexivity.
Qed.

(** ** Delivery *)

(** C1: take a connection in any state that calls of [set_status],
    [set_weight] and [send] lead to from the default constructor.  If the
    parameters are valid ([Wmax > 0], [lambda > 0], [alpha >= 0],
    [mu_plus >= 0], [mu_minus >= 0]), the weight lies in [0, Wmax] and the
    trace the target supplies is not negative, then the weight after the
    delivery lies in [0, Wmax]. *)
Theorem send_keeps_weight_bounds (base : Connection) (ops : list operation)
    (e : Event) (target : Node) (t_lastspike : R) :
  let c := run ops (STDPConnection_default base) in
  0 < Wmax_ c -> 0 < lambda_ c -> 0 <= alpha_ c ->
  0 <= mu_plus_ c -> 0 <= mu_minus_ c ->
  0 <= weight_ c <= Wmax_ c ->
  0 <= get_K_value target (get_stamp_ms e - get_delay (ConnectionBase c)) ->
  0 <= weight_ (after (send e target t_lastspike) c) <= Wmax_ c.
Proof.
  intros c HW Hl Ha _ _ Hw Hk.
  apply send_weight_bounds; try assumption; try lra.
  apply run_Kplus_nonneg. simpl. lra.
Qed.

(** C2, as amended: the weight after the facilitation phase of a delivery
    is the left fold of [facilitate_] over the records of the history
    window whose [minus_dt] is not 0, in the order in which the target hands
    the window out, which is by non-decreasing time when the window is;
    every step starts from the weight the step before it left and uses
    [k = Kplus * exp (minus_dt / tau_plus)] with
    [minus_dt = t_lastspike - (t + d)].  One depression follows, by the
    trace of the target at [t_spike - d].  Where no record of the window
    has a [minus_dt] of 0, the fold is over the whole window. *)
Theorem send_folds_window (e : Event) (target : Node) (t_lastspike : R)
    (c : STDPConnection) :
  let d := get_delay (ConnectionBase c) in
  let t_spike := get_stamp_ms e in
  let window := get_history target (t_lastspike - d) (t_spike - d) in
  let taken :=
    List.filter (fun h => negb (if Req_dec_T (t_lastspike - (t_ h + d)) 0
                                then true else false)) window in
  let step (w : R) (h : histentry) :=
    facilitate_ c w (Kplus_ c * exp ((t_lastspike - (t_ h + d)) / tau_plus_ c)) in
  weight_ (facilitation t_lastspike d window c) = fold_left step taken (weight_ c)
  /\ weight_ (after (send e target t_lastspike) c)
     = depress_ c (fold_left step taken (weight_ c)) (get_K_value target (t_spike - d))
  /\ (Sorted Rle (map t_ window) -> Sorted Rle (map t_ taken))
  /\ ((forall h, In h window -> t_lastspike - (t_ h + d) <> 0) -> taken = window).
Proof.
  intros d t_spike window taken step.
  split; [|split; [|split]].
  - rewrite facilitation_fold. reflexivity.
  - unfold after, send. cbn [fst]. fold d t_spike window.
    rewrite facilitation_fold. reflexivity.
  - intros Hs. apply StronglySorted_Sorted. apply filter_sorted_times.
    apply Sorted_StronglySorted; [|assumption].
    intros x y z Hxy Hyz. lra.
  - intros Hall. apply filter_keeps_all. intros h Hh.
    destruct (Req_dec_T (t_lastspike - (t_ h + d)) 0) as [H0|H0];
      [exfalso; exact (Hall h Hh H0)|reflexivity].
Qed.

(** C5: a record of the range whose [minus_dt] is exactly 0 is consumed
    without any facilitation.  The iteration on it leaves the connection as
    it was; the loop goes on with the records after it; its result is the
    one of the range without that record; and in any range the weight is
    the fold over the records that are not coincident, each taken once. *)
Theorem coincident_record_skipped (t_lastspike d : R) (pre post : list histentry)
    (h : histentry) (c : STDPConnection) :
  t_lastspike - (t_ h + d) = 0 ->
  facilitation t_lastspike d [h] c = c
  /\ facilitation t_lastspike d (pre ++ h :: post) c
     = facilitation t_lastspike d post (facilitation t_lastspike d pre c)
  /\ facilitation t_lastspike d (pre ++ h :: post) c
     = facilitation t_lastspike d (pre ++ post) c
  /\ weight_ (facilitation t_lastspike d (pre ++ h :: post) c)
     = fold_left (facilitate_step c t_lastspike d)
         (List.filter (fun r => negb (coincident t_lastspike d r)) (pre ++ post))
         (weight_ c).
Proof.
  intros H0.
  assert (H1 : forall c', facilitation t_lastspike d (h :: post) c'
                          = facilitation t_lastspike d post c').
  { intros c'. simpl. destruct (Req_dec_T _ 0); [reflexivity|contradiction]. }
  repeat split.
  - simpl. destruct (Req_dec_T _ 0); [reflexivity|contradiction].
  - rewrite facilitation_app. apply H1.
  - rewrite !facilitation_app. apply H1.
  - rewrite facilitation_app, H1, <- facilitation_app, facilitation_fold.
    reflexivity.
Qed.

(** C6: every delivery ends with the trace set to
    [Kplus * exp ((t_lastspike - t_spike) / tau_plus) + 1]; when the history
    window is empty the weight it leaves is the one depression of the
    weight it found. *)
Theorem send_advances_trace (e : Event) (target : Node) (t_lastspike : R)
    (c : STDPConnection) :
  let d := get_delay (ConnectionBase c) in
  let t_spike := get_stamp_ms e in
  Kplus_ (after (send e target t_lastspike) c)
  = Kplus_ c * exp ((t_lastspike - t_spike) / tau_plus_ c) + 1
  /\ (get_history target (t_lastspike - d) (t_spike - d) = [] ->
      weight_ (after (send e target t_lastspike) c)
      = depress_ c (weight_ c) (get_K_value target (t_spike - d))).
Proof.
  intros d t_spike. split; [apply send_Kplus|].
  intros Hempty. unfold after, send. cbn [fst]. fold d t_spike.
  rewrite Hempty. reflexivity.
Qed.

(** ** The status dictionary *)

(** C7: [get_status] followed by [set_status] of the dictionary it handed
    back leaves every data member of the connection as it was: the weight,
    the six parameters and the trace.  The connection differs at most in
    what [set_status] of the base did to the base. *)
Theorem status_round_trip (d : Dictionary) (cm : ConnectorModel) (c : STDPConnection) :
  exists dict : Dictionary,
    get_status d c = (c, Returns dict)
    /\ let c' := after (set_status dict cm) c in
       c' = set_ConnectionBase (ConnectionBase c') c
       /\ weight_ c' = weight_ c
       /\ tau_plus_ c' = tau_plus_ c
       /\ lambda_ c' = lambda_ c
       /\ alpha_ c' = alpha_ c
       /\ mu_plus_ c' = mu_plus_ c
       /\ mu_minus_ c' = mu_minus_ c
       /\ Wmax_ c' = Wmax_ c
       /\ Kplus_ c' = Kplus_ c.
Proof.
  exists (exported d c). split; [reflexivity|].
  assert (H : after (set_status (exported d c) cm) c
              = set_ConnectionBase
                  (fst (Connection_set_status (exported d c) cm (ConnectionBase c))) c).
  { unfold after, set_status, bind, ConnectionBase_set_status.
    destruct (Connection_set_status (exported d c) cm (ConnectionBase c))
      as [b [[]|]]; [|reflexivity].
    rewrite (updateValue_present _ _ _ _ _ (exported_weight d c)).
    rewrite (updateValue_present _ _ _ _ _ (exported_tau_plus d c)).
    rewrite (updateValue_present _ _ _ _ _ (exported_lambda d c)).
    rewrite (updateValue_present _ _ _ _ _ (exported_alpha d c)).
    rewrite (updateValue_present _ _ _ _ _ (exported_mu_plus d c)).
    rewrite (updateValue_present _ _ _ _ _ (exported_mu_minus d c)).
    rewrite (updateValue_present _ _ _ _ _ (exported_Wmax d c)).
    reflexivity. }
  cbv zeta. rewrite H. repeat split.
Qed.

(** C8, as amended: [get_status] hands back the weight and the six
    parameters [tau_plus], [lambda], [alpha], [mu_plus], [mu_minus] and
    [Wmax], and the entry [size_of]; it leaves the connection as it is; the
    trace is not part of what it hands back. *)
Theorem get_status_reports (d : Dictionary) (c : STDPConnection) :
  exists dict : Dictionary,
    get_status d c = (c, Returns dict)
    /\ dict !! names_weight = Some (DoubleDatum (weight_ c))
    /\ dict !! "tau_plus" = Some (DoubleDatum (tau_plus_ c))
    /\ dict !! "lambda" = Some (DoubleDatum (lambda_ c))
    /\ dict !! "alpha" = Some (DoubleDatum (alpha_ c))
    /\ dict !! "mu_plus" = Some (DoubleDatum (mu_plus_ c))
    /\ dict !! "mu_minus" = Some (DoubleDatum (mu_minus_ c))
    /\ dict !! "Wmax" = Some (DoubleDatum (Wmax_ c))
    /\ dict !! names_size_of = Some (IntegerDatum sizeof_this)
    /\ (forall k : R, snd (get_status d (set_Kplus_ k c)) = Returns dict).
Proof.
  exists (exported d c). split; [reflexivity|].
  split; [apply exported_weight|].
  split; [apply exported_tau_plus|].
  split; [apply exported_lambda|].
  split; [apply exported_alpha|].
  split; [apply exported_mu_plus|].
  split; [apply exported_mu_minus|].
  split; [apply exported_Wmax|].
  split; [apply exported_size_of|].
  intros k. reflexivity.
Qed.

(** C10, as amended: [set_status] and [set_weight] leave the trace as it
    is; after any sequence of calls from the default constructor in which
    every delivery finds [tau_plus > 0] and a time stamp that is not before
    [t_lastspike], the trace is not negative, and right after such a
    delivery it is at least 1. *)
Theorem trace_invariant_in_time (base : Connection) (ops : list operation) :
  well_timed ops (STDPConnection_default base) ->
  (forall d cm c, Kplus_ (after (set_status d cm) c) = Kplus_ c)
  /\ (forall w c, Kplus_ (set_weight w c) = Kplus_ c)
  /\ Kplus_ (STDPConnection_default base) = 0
  /\ 0 <= Kplus_ (run ops (STDPConnection_default base))
  /\ (forall e target t_lastspike,
        0 < tau_plus_ (run ops (STDPConnection_default base)) ->
        t_lastspike <= get_stamp_ms e ->
        1 <= Kplus_ (run (ops ++ [call_send e target t_lastspike])
                       (STDPConnection_default base))).
Proof.
  intros _.
  assert (H0 : 0 <= Kplus_ (run ops (STDPConnection_default base))).
  { apply run_Kplus_nonneg. simpl. lra. }
  repeat split.
  - intros d cm c. apply set_status_keeps_Kplus.
  - assumption.
  - intros e target tl _ _. unfold run. rewrite fold_left_app.
    cbn [fold_left perform]. apply send_Kplus_ge_1. exact H0.
Qed.

(** ** Further properties of the update rule *)

Lemma facilitate_le_Wmax (c : STDPConnection) (w k : R) :
  0 < Wmax_ c -> facilitate_ c w k <= Wmax_ c.
Proof.
  intros HW. unfold facilitate_.
  destruct (Rlt_dec _ 1) as [Hlt|Hge]; [nra|lra].
Qed.

Lemma depress_nonneg (c : STDPConnection) (w k : R) :
  0 < Wmax_ c -> 0 <= depress_ c w k.
Proof.
  intros HW. unfold depress_.
  destruct (Rgt_dec _ 0) as [Hgt|Hle]; [nra|lra].
Qed.

(** X1: with [Wmax > 0] the clamps hold for every argument: [facilitate_]
    never returns more than [Wmax] and [depress_] never less than 0,
    whatever the weight, the trace and the other parameters are. *)
Theorem clamps_hold_everywhere (c : STDPConnection) (w k : R) :
  0 < Wmax_ c -> facilitate_ c w k <= Wmax_ c /\ 0 <= depress_ c w k.
Proof.
  intros HW. split; [apply facilitate_le_Wmax|apply depress_nonneg]; assumption.
Qed.

(** X2: a weight at a bound stays there: with [Wmax > 0], step sizes and a
    trace that are not negative, [facilitate_ (Wmax, k) = Wmax] and
    [depress_ (0, k) = 0]. *)
Theorem bounds_are_absorbing (c : STDPConnection) (k : R) :
  0 < Wmax_ c -> 0 <= lambda_ c -> 0 <= alpha_ c -> 0 <= k ->
  facilitate_ c (Wmax_ c) k = Wmax_ c /\ depress_ c 0 k = 0.
Proof.
  intros HW Hl Ha Hk. split.
  - unfold facilitate_.
    replace (Wmax_ c / Wmax_ c) with 1 by (field; lra).
    assert (Hp : 0 <= pow (1 - 1) (mu_plus_ c)) by (apply pow_nonneg; lra).
    assert (Hlp : 0 <= lambda_ c * pow (1 - 1) (mu_plus_ c) * k).
    { apply Rmult_le_pos; [apply Rmult_le_pos|]; assumption. }
    destruct (Rlt_dec _ 1) as [Hlt|Hge]; [lra|reflexivity].
  - unfold depress_.
    replace (0 / Wmax_ c) with 0 by (field; lra).
    assert (Hp : 0 <= pow 0 (mu_minus_ c)) by (apply pow_nonneg; lra).
    assert (Hlp : 0 <= alpha_ c * lambda_ c * pow 0 (mu_minus_ c) * k).
    { repeat apply Rmult_le_pos; assumption. }
    destruct (Rgt_dec _ 0) as [Hgt|Hle]; [lra|reflexivity].
Qed.

(** X4: a larger trace facilitates more and depresses more: for valid
    parameters and a weight in [0, Wmax], [k1 <= k2] gives
    [facilitate_ (w, k1) <= facilitate_ (w, k2)] and
    [depress_ (w, k2) <= depress_ (w, k1)]. *)
Theorem update_monotone_in_trace (c : STDPConnection) (w k1 k2 : R) :
  0 < Wmax_ c -> 0 <= lambda_ c -> 0 <= alpha_ c -> 0 <= w <= Wmax_ c ->
  k1 <= k2 ->
  facilitate_ c w k1 <= facilitate_ c w k2 /\ depress_ c w k2 <= depress_ c w k1.
Proof.
  intros HW Hl Ha Hw Hk.
  destruct (normalised_weight _ _ HW Hw) as [Hx0 Hx1].
  split.
  - assert (Hp : 0 <= pow (1 - w / Wmax_ c) (mu_plus_ c)) by (apply pow_nonneg; lra).
    assert (Hlp : 0 <= lambda_ c * pow (1 - w / Wmax_ c) (mu_plus_ c))
      by (apply Rmult_le_pos; assumption).
    unfold facilitate_.
    set (q := lambda_ c * pow (1 - w / Wmax_ c) (mu_plus_ c)) in *.
    assert (Hq : q * k1 <= q * k2) by (apply Rmult_le_compat_l; assumption).
    destruct (Rlt_dec (w / Wmax_ c + q * k1) 1) as [H1|H1];
      destruct (Rlt_dec (w / Wmax_ c + q * k2) 1) as [H2|H2]; try lra.
    + apply Rmult_le_compat_r; lra.
    + set (a := w / Wmax_ c + q * k1) in *. clearbody a. nra.
  - assert (Hp : 0 <= pow (w / Wmax_ c) (mu_minus_ c)) by (apply pow_nonneg; lra).
    assert (Hlp : 0 <= alpha_ c * lambda_ c * pow (w / Wmax_ c) (mu_minus_ c)).
    { repeat apply Rmult_le_pos; assumption. }
    unfold depress_.
    set (q := alpha_ c * lambda_ c * pow (w / Wmax_ c) (mu_minus_ c)) in *.
    assert (Hq : q * k1 <= q * k2) by (apply Rmult_le_compat_l; assumption).
    destruct (Rgt_dec (w / Wmax_ c - q * k1) 0) as [H1|H1];
      destruct (Rgt_dec (w / Wmax_ c - q * k2) 0) as [H2|H2]; try lra.
    + apply Rmult_le_compat_r; lra.
    + apply Rmult_le_pos; lra.
Qed.

(** ** Further properties of the delivery *)

(** [send] in one piece: the weight after the loop is the fold over the
    records that are not coincident, one depression follows, the event
    takes the new weight, and the trace is advanced last. *)
Lemma send_closed_form (e : Event) (target : Node) (t_lastspike : R)
    (c : STDPConnection) :
  let d := get_delay (ConnectionBase c) in
  let t_spike := get_stamp_ms e in
  let w_fac :=
    fold_left (facilitate_step c t_lastspike d)
      (List.filter (fun h => negb (coincident t_lastspike d h))
         (get_history target (t_lastspike - d) (t_spike - d)))
      (weight_ c) in
  let w := depress_ c w_fac (get_K_value target (t_spike - d)) in
  send e target t_lastspike c
  = (set_Kplus_ (Kplus_ c * exp ((t_lastspike - t_spike) / tau_plus_ c) + 1)
       (set_weight w c),
     Returns (mkEvent t_spike (Some target) w
                (get_delay_steps (ConnectionBase c)) (get_rport (ConnectionBase c)))).
Proof.
  intros d t_spike w_fac w. unfold send. fold d t_spike.
  rewrite facilitation_fold. reflexivity.
Qed.

Lemma facilitate_at_Wmax (c : STDPConnection) (k : R) :
  0 < Wmax_ c -> 0 <= lambda_ c -> 0 <= k ->
  facilitate_ c (Wmax_ c) k = Wmax_ c.
Proof.
  intros HW Hl Hk. unfold facilitate_.
  replace (Wmax_ c / Wmax_ c) with 1 by (field; lra).
  assert (Hp : 0 <= pow (1 - 1) (mu_plus_ c)) by (apply pow_nonneg; lra).
  assert (Hlp : 0 <= lambda_ c * pow (1 - 1) (mu_plus_ c) * k).
  { apply Rmult_le_pos; [apply Rmult_le_pos|]; assumption. }
  destruct (Rlt_dec _ 1) as [Hlt|Hge]; [lra|reflexivity].
Qed.

Lemma fold_facilitate_at_Wmax (c : STDPConnection) (t_lastspike d : R)
    (l : list histentry) :
  0 < Wmax_ c -> 0 <= lambda_ c -> 0 <= Kplus_ c ->
  fold_left (facilitate_step c t_lastspike d) l (Wmax_ c) = Wmax_ c.
Proof.
  intros HW Hl HK.
  induction l as [|h l IH]; simpl; [reflexivity|].
  unfold facilitate_step at 2. rewrite facilitate_at_Wmax; try assumption.
  apply Rmult_le_pos; [assumption|]. left. apply exp_pos.
Qed.

Lemma exp_le_1 (x : R) : x <= 0 -> exp x <= 1.
Proof.
  intros [Hlt|Heq].
  - left. rewrite <- exp_0. apply exp_increasing. assumption.
  - rewrite Heq, exp_0. lra.
Qed.


(** X7: whatever the state of the connection, the traces and the history
    are, with [Wmax > 0] the weight after a delivery is not negative and
    is the weight of the delivered event. *)
Theorem send_weight_never_negative (e : Event) (target : Node) (t_lastspike : R)
    (c : STDPConnection) :
  0 < Wmax_ c ->
  0 <= weight_ (after (send e target t_lastspike) c)
  /\ snd (send e target t_lastspike c)
     = Returns (mkEvent (get_stamp_ms e) (Some target)
                  (weight_ (after (send e target t_lastspike) c))
                  (get_delay_steps (ConnectionBase c))
                  (get_rport (ConnectionBase c))).
Proof.
  intros HW. unfold after. rewrite send_closed_form. cbn [fst snd].
  split; [|reflexivity].
  cbn [weight_ set_Kplus_ set_weight]. apply depress_nonneg. assumption.
Qed.

(** X8: [send] assigns the weight and the trace only: the base with the
    delay, the port and the six parameters are as before, and the call
    returns. *)
Theorem send_changes_weight_and_trace_only (e : Event) (target : Node)
    (t_lastspike : R) (c : STDPConnection) :
  let c' := after (send e target t_lastspike) c in
  c' = set_Kplus_ (Kplus_ c') (set_weight (weight_ c') c)
  /\ ConnectionBase c' = ConnectionBase c
  /\ parameters c' = parameters c
  /\ exists e', snd (send e target t_lastspike c) = Returns e'.
Proof.
  unfold after. rewrite send_closed_form. cbn [fst snd].
  repeat split. eexists. reflexivity.
Qed.

(** X10: the loop of [send] keeps the weight within its bounds and keeps a
    saturated weight saturated: for [Wmax > 0], a step size and a trace that
    are not negative and a weight in [0, Wmax], the weight after the loop
    over any range lies in [0, Wmax], and it is [Wmax] when the weight before
    the loop was. *)
Theorem facilitation_keeps_bounds (t_lastspike d : R) (range : list histentry)
    (c : STDPConnection) :
  0 < Wmax_ c -> 0 <= lambda_ c -> 0 <= Kplus_ c -> 0 <= weight_ c <= Wmax_ c ->
  0 <= weight_ (facilitation t_lastspike d range c) <= Wmax_ c
  /\ (weight_ c = Wmax_ c ->
      weight_ (facilitation t_lastspike d range c) = Wmax_ c).
Proof.
  intros HW Hl HK Hw. rewrite facilitation_fold. cbn [weight_ set_weight].
  split.
  - apply fold_facilitate_bounds; assumption.
  - intros Heq. rewrite Heq. apply fold_facilitate_at_Wmax; assumption.
Qed.

(** X11: between deliveries in the order of time the trace decays: with
    [tau_plus > 0], [t_lastspike <= t_spike] and a trace that is not
    negative, the trace after the delivery is at least 1 and at most the
    trace before plus 1. *)
Theorem trace_grows_by_at_most_one (e : Event) (target : Node) (t_lastspike : R)
    (c : STDPConnection) :
  0 < tau_plus_ c -> t_lastspike <= get_stamp_ms e -> 0 <= Kplus_ c ->
  1 <= Kplus_ (after (send e target t_lastspike) c) <= Kplus_ c + 1.
Proof.
  intros Ht Hs HK. rewrite send_Kplus.
  pose proof (exp_pos ((t_lastspike - get_stamp_ms e) / tau_plus_ c)) as Hp.
  assert (Hx : (t_lastspike - get_stamp_ms e) / tau_plus_ c <= 0).
  { unfold Rdiv. pose proof (Rinv_0_lt_compat _ Ht). nra. }
  pose proof (exp_le_1 _ Hx) as H1.
  split; nra.
Qed.


Lemma perform_keeps_parameters (c : STDPConnection) (o : operation) :
  keeps_status o ->
  parameters (perform c o) = parameters c
  /\ ConnectionBase (perform c o) = ConnectionBase c.
Proof.
  destruct o as [d cm|w|e target tl]; cbn [keeps_status perform]; intros H.
  - contradiction.
  - split; reflexivity.
  - unfold after. rewrite send_closed_form. split; reflexivity.
Qed.

(** X13: only [set_status] changes the parameters: a run of [send] and
    [set_weight] calls leaves [tau_plus], [lambda], [alpha], [mu_plus],
    [mu_minus], [Wmax] and the base of the connection as they were. *)
Theorem run_keeps_parameters (ops : list operation) (c : STDPConnection) :
  List.Forall keeps_status ops ->
  parameters (run ops c) = parameters c
  /\ ConnectionBase (run ops c) = ConnectionBase c.
Proof.
  unfold run. revert c.
  induction ops as [|o ops IH]; intros c H; cbn [fold_left]; [split; reflexivity|].
  apply List.Forall_cons_iff in H as [Ho Hops].
  destruct (perform_keeps_parameters c o Ho) as [Hp Hb].
  destruct (IH (perform c o) Hops) as [Hp' Hb'].
  split; congruence.
Qed.

(** The state of a connection that deliveries keep: valid step sizes and
    [Wmax], a trace that is not negative and a weight in [0, Wmax]. *)
Lemma perform_keeps_bounds (c : STDPConnection) (o : operation) :
  supplied_send (get_delay (ConnectionBase c)) o ->
  0 < Wmax_ c -> 0 <= lambda_ c -> 0 <= alpha_ c -> 0 <= Kplus_ c ->
  0 <= weight_ c <= Wmax_ c ->
  parameters (perform c o) = parameters c
  /\ ConnectionBase (perform c o) = ConnectionBase c
  /\ 0 <= Kplus_ (perform c o)
  /\ 0 <= weight_ (perform c o) <= Wmax_ c.
Proof.
  destruct o as [d cm|w|e target tl]; cbn [supplied_send perform];
    intros Hs HW Hl Ha HK Hw; try contradiction.
  split; [|split; [|split]].
  - unfold after. rewrite send_closed_form. reflexivity.
  - unfold after. rewrite send_closed_form. reflexivity.
  - pose proof (send_Kplus_ge_1 e target tl c HK). lra.
  - apply send_weight_bounds; assumption.
Qed.

(** X14: the bounds of the weight are kept along any train of deliveries:
    from valid step sizes and [Wmax], a trace that is not negative and a
    weight in [0, Wmax], any sequence of [send] calls whose targets supply
    traces that are not negative leaves the weight in [0, Wmax]. *)
Theorem run_of_sends_keeps_bounds (ops : list operation) (c : STDPConnection) :
  List.Forall (supplied_send (get_delay (ConnectionBase c))) ops ->
  0 < Wmax_ c -> 0 <= lambda_ c -> 0 <= alpha_ c -> 0 <= Kplus_ c ->
  0 <= weight_ c <= Wmax_ c ->
  0 <= weight_ (run ops c) <= Wmax_ c /\ Wmax_ (run ops c) = Wmax_ c.
Proof.
  unfold run. revert c.
  induction ops as [|o ops IH]; intros c H HW Hl Ha HK Hw; cbn [fold_left];
    [split; [assumption|reflexivity]|].
  apply List.Forall_cons_iff in H as [Ho Hops].
  destruct (perform_keeps_bounds c o Ho HW Hl Ha HK Hw) as (Hp & Hb & HK' & Hw').
  unfold parameters in Hp. injection Hp as Htau Hla Hal Hmp Hmm HWm.
  rewrite <- Hb in Hops.
  assert (HW' : 0 < Wmax_ (perform c o)) by lra.
  assert (Hl' : 0 <= lambda_ (perform c o)) by lra.
  assert (Ha' : 0 <= alpha_ (perform c o)) by lra.
  assert (Hw'' : 0 <= weight_ (perform c o) <= Wmax_ (perform c o)) by lra.
  destruct (IH (perform c o) Hops HW' Hl' Ha' HK' Hw'') as [H1 H2].
  split; [lra|congruence].
Qed.

(** ** Further properties of the status dictionary *)

Lemma keeps_updateValue_absent {B : Type} (f : STDPConnection -> B) (d : Dictionary)
    (n : string) (assign : R -> STDPConnection -> STDPConnection) :
  d !! n = None -> keeps f (updateValue d n assign).
Proof. intros H c. unfold after, updateValue. rewrite H. reflexivity. Qed.

(** Every step of [set_status] keeps a member whose own key is absent. *)
Ltac keeps_member :=
  unfold set_status;
  repeat (apply keeps_bind; [|intros ?]);
  first [ apply keeps_ConnectionBase_set_status; reflexivity
        | apply keeps_updateValue; reflexivity
        | apply keeps_updateValue_absent; assumption
        | apply keeps_ret ].

(** One [updateValue] on a readable entry, followed by the rest of the
    method. *)
Lemma bind_updateValue_readable {A : Type} (d : Dictionary) (n : string)
    (member : STDPConnection -> R)
    (assign : R -> STDPConnection -> STDPConnection) (k : M A) (c : STDPConnection) :
  (forall c', assign (member c') c' = c') ->
  readable d n ->
  (updateValue d n assign >> k) c = k (assign (updated d n (member c)) c).
Proof.
  intros Hid Hr. unfold bind, updateValue, updated.
  destruct (d !! n) as [[x|z]|] eqn:E.
  - reflexivity.
  - exfalso. exact (Hr z E).
  - rewrite Hid. reflexivity.
Qed.

(** [set_status] in one piece, when the base returns and every key it reads
    is readable. *)
Lemma set_status_closed_form (d : Dictionary) (cm : ConnectorModel)
    (c : STDPConnection) (b : Connection) :
  Connection_set_status d cm (ConnectionBase c) = (b, Returns tt) ->
  List.Forall (readable d) status_keys ->
  set_status d cm c
  = (mkSTDPConnection b
       (updated d names_weight (weight_ c))
       (updated d "tau_plus" (tau_plus_ c))
       (updated d "lambda" (lambda_ c))
       (updated d "alpha" (alpha_ c))
       (updated d "mu_plus" (mu_plus_ c))
       (updated d "mu_minus" (mu_minus_ c))
       (updated d "Wmax" (Wmax_ c))
       (Kplus_ c),
     Returns tt).
Proof.
  intros Hb Hr. unfold status_keys in Hr.
  repeat (apply List.Forall_cons_iff in Hr as [? Hr]).
  unfold set_status.
  unfold bind at 1. unfold ConnectionBase_set_status. rewrite Hb.
  rewrite (bind_updateValue_readable d names_weight weight_)
    by (assumption || (intros []; reflexivity)).
  rewrite (bind_updateValue_readable d "tau_plus" tau_plus_)
    by (assumption || (intros []; reflexivity)).
  rewrite (bind_updateValue_readable d "lambda" lambda_)
    by (assumption || (intros []; reflexivity)).
  rewrite (bind_updateValue_readable d "alpha" alpha_)
    by (assumption || (intros []; reflexivity)).
  rewrite (bind_updateValue_readable d "mu_plus" mu_plus_)
    by (assumption || (intros []; reflexivity)).
  rewrite (bind_updateValue_readable d "mu_minus" mu_minus_)
    by (assumption || (intros []; reflexivity)).
  rewrite (bind_updateValue_readable d "Wmax" Wmax_)
    by (assumption || (intros []; reflexivity)).
  reflexivity.
Qed.

(** X15: [set_status] leaves a member alone when its key is not in the
    dictionary, whatever the other entries are and however the call ends. *)
Theorem set_status_absent_key (d : Dictionary) (cm : ConnectorModel)
    (c : STDPConnection) :
  let c' := after (set_status d cm) c in
  (d !! names_weight = None -> weight_ c' = weight_ c)
  /\ (d !! "tau_plus" = None -> tau_plus_ c' = tau_plus_ c)
  /\ (d !! "lambda" = None -> lambda_ c' = lambda_ c)
  /\ (d !! "alpha" = None -> alpha_ c' = alpha_ c)
  /\ (d !! "mu_plus" = None -> mu_plus_ c' = mu_plus_ c)
  /\ (d !! "mu_minus" = None -> mu_minus_ c' = mu_minus_ c)
  /\ (d !! "Wmax" = None -> Wmax_ c' = Wmax_ c).
Proof.
  cbv zeta.
  repeat split; intros H.
  - assert (K : keeps weight_ (set_status d cm)) by keeps_member. apply K.
  - assert (K : keeps tau_plus_ (set_status d cm)) by keeps_member. apply K.
  - assert (K : keeps lambda_ (set_status d cm)) by keeps_member. apply K.
  - assert (K : keeps alpha_ (set_status d cm)) by keeps_member. apply K.
  - assert (K : keeps mu_plus_ (set_status d cm)) by keeps_member. apply K.
  - assert (K : keeps mu_minus_ (set_status d cm)) by keeps_member. apply K.
  - assert (K : keeps Wmax_ (set_status d cm)) by keeps_member. apply K.
Qed.

Lemma exported_other (d : Dictionary) (c : STDPConnection) (n : string) :
  ~ In n status_keys -> n <> names_size_of ->
  exported d c !! n = Connection_get_status (ConnectionBase c) d !! n.
Proof.
  intros Hn Hs. unfold status_keys in Hn. cbn [In] in Hn.
  unfold exported, get_status, def. cbn [snd].
  repeat (rewrite lookup_insert_ne;
    [|intros E; subst n; first [congruence | apply Hn; auto 10]]).
  reflexivity.
Qed.

(** X16: when the base accepts the dictionary and every key [set_status]
    reads is absent or holds a double, [set_status] returns, every member
    whose key is present takes the value under the key, every other member
    and the trace are as before. *)
Theorem set_status_applies (d : Dictionary) (cm : ConnectorModel)
    (c : STDPConnection) (b : Connection) :
  Connection_set_status d cm (ConnectionBase c) = (b, Returns tt) ->
  List.Forall (readable d) status_keys ->
  set_status d cm c
  = (mkSTDPConnection b
       (updated d names_weight (weight_ c))
       (updated d "tau_plus" (tau_plus_ c))
       (updated d "lambda" (lambda_ c))
       (updated d "alpha" (alpha_ c))
       (updated d "mu_plus" (mu_plus_ c))
       (updated d "mu_minus" (mu_minus_ c))
       (updated d "Wmax" (Wmax_ c))
       (Kplus_ c),
     Returns tt).
Proof. apply set_status_closed_form. Qed.

(** X17: [set_status] of the base runs first: when it raises, [set_status]
    raises and the weight, the parameters and the trace are untouched. *)
Theorem set_status_base_raises (d : Dictionary) (cm : ConnectorModel)
    (c : STDPConnection) (b : Connection) :
  Connection_set_status d cm (ConnectionBase c) = (b, Throws) ->
  snd (set_status d cm c) = Throws
  /\ after (set_status d cm) c = set_ConnectionBase b c
  /\ weight_ (after (set_status d cm) c) = weight_ c
  /\ parameters (after (set_status d cm) c) = parameters c
  /\ Kplus_ (after (set_status d cm) c) = Kplus_ c.
Proof.
  intros Hb.
  assert (H : set_status d cm c = (set_ConnectionBase b c, Throws)).
  { unfold set_status. unfold bind at 1. unfold ConnectionBase_set_status.
    rewrite Hb. reflexivity. }
  unfold after. rewrite H. repeat split.
Qed.

(** X18: what [set_status] has taken in, [get_status] hands back: when the
    base accepts the dictionary and every key read is absent or holds a
    double, each of the seven keys that is present in the dictionary is
    exported afterwards with the value it had there. *)
Theorem import_then_export (d d0 : Dictionary) (cm : ConnectorModel)
    (c : STDPConnection) (b : Connection) (n : string) (x : R) :
  Connection_set_status d cm (ConnectionBase c) = (b, Returns tt) ->
  List.Forall (readable d) status_keys ->
  In n status_keys ->
  d !! n = Some (DoubleDatum x) ->
  exists dict : Dictionary,
    snd (get_status d0 (after (set_status d cm) c)) = Returns dict
    /\ dict !! n = Some (DoubleDatum x).
Proof.
  intros Hb Hr Hn Hx.
  exists (exported d0 (after (set_status d cm) c)). split; [reflexivity|].
  unfold after. rewrite (set_status_closed_form d cm c b Hb Hr). cbn [fst].
  unfold status_keys in Hn. cbn [In] in Hn.
  destruct Hn as [<-|[<-|[<-|[<-|[<-|[<-|[<-|[]]]]]]]].
  - rewrite exported_weight. cbn [weight_]. unfold updated. rewrite Hx. reflexivity.
  - rewrite exported_tau_plus. cbn [tau_plus_]. unfold updated. rewrite Hx. reflexivity.
  - rewrite exported_lambda. cbn [lambda_]. unfold updated. rewrite Hx. reflexivity.
  - rewrite exported_alpha. cbn [alpha_]. unfold updated. rewrite Hx. reflexivity.
  - rewrite exported_mu_plus. cbn [mu_plus_]. unfold updated. rewrite Hx. reflexivity.
  - rewrite exported_mu_minus. cbn [mu_minus_]. unfold updated. rewrite Hx. reflexivity.
  - rewrite exported_Wmax. cbn [Wmax_]. unfold updated. rewrite Hx. reflexivity.
Qed.

(** X19: [get_status] writes its eight keys and nothing else: every other
    entry of the dictionary it hands back is as [get_status] of the base
    left it. *)
Theorem get_status_other_keys (d : Dictionary) (c : STDPConnection) (n : string) :
  ~ In n status_keys -> n <> names_size_of ->
  exists dict : Dictionary,
    snd (get_status d c) = Returns dict
    /\ dict !! n = Connection_get_status (ConnectionBase c) d !! n.
Proof.
  intros Hn Hs. exists (exported d c). split; [reflexivity|].
  apply exported_other; assumption.
Qed.

(** X20: [set_status] with a dictionary that holds the weight only does
    what [set_weight] does, next to what the base does to the base. *)
Theorem set_status_weight_only (w : R) (cm : ConnectorModel) (c : STDPConnection)
    (b : Connection) :
  let d : Dictionary := {[ names_weight := DoubleDatum w ]} in
  Connection_set_status d cm (ConnectionBase c) = (b, Returns tt) ->
  set_status d cm c = (set_ConnectionBase b (set_weight w c), Returns tt).
Proof.
  intros d Hb.
  assert (Hr : List.Forall (readable d) status_keys).
  { unfold status_keys, readable, d, names_weight.
    repeat constructor; intros z H;
      first [ rewrite lookup_singleton_eq in H
            | rewrite lookup_singleton_ne in H by discriminate ];
      discriminate. }
  rewrite (set_status_closed_form d cm c b Hb Hr).
  unfold updated, d, names_weight.
  rewrite lookup_singleton_eq.
  rewrite !lookup_singleton_ne by discriminate.
  reflexivity.
Qed.

End Status.

(** ** Instances *)

(** The window of a delivery at 30 ms after one at 10 ms, with a delay of
    1 ms, holds the spike at 25 ms only. *)
Example window_of_active :
  get_history active (10 - 1) (30 - 1) = [mkhistentry 25 0].
Proof.
  unfold active. cbn [get_history]. unfold windowed, in_window. simpl.
  repeat (destruct (Rlt_dec _ _); try lra);
    repeat (destruct (Rle_dec _ _); try lra); reflexivity.
Qed.

(** The window of the same delivery to the busy target holds three
    spikes. *)
Lemma window_of_busy :
  get_history busy (10 - 1) (30 - 1)
  = [mkhistentry 12 0; mkhistentry 25 0; mkhistentry 27 0].
Proof.
  unfold busy. cbn [get_history]. unfold windowed, in_window. simpl.
  repeat (destruct (Rlt_dec _ _); try lra);
    repeat (destruct (Rle_dec _ _); try lra); reflexivity.
Qed.

(** None of the three is coincident with a delivery whose [t_lastspike] is
    10 ms. *)
Lemma taken_of_busy :
  List.filter
    (fun h => negb (if Req_dec_T (10 - (t_ h + 1)) 0 then true else false))
    [mkhistentry 12 0; mkhistentry 25 0; mkhistentry 27 0]
  = [mkhistentry 12 0; mkhistentry 25 0; mkhistentry 27 0].
Proof.
  simpl. repeat (destruct (Req_dec_T _ 0); [lra|]). reflexivity.
Qed.

(** Binary64: a division and a multiplication by [Wmax] do not give the
    weight back. *)
Example renormalisation_rounds :
  PrimFloat.eqb (7 / 100 * 100)%float 7%float = false
  /\ PrimFloat.ltb 7%float (7 / 100 * 100)%float = true
  /\ PrimFloat.ltb (29 / 100 * 100)%float 29%float = true.
Proof. repeat split; vm_compute; reflexivity. Qed.

(** The first delivery of the scenario of the description: weight 50, no
    post-synaptic spike, a zero trace of the target.  The weight stays 50
    and the trace becomes 1. *)
Example first_delivery :
  let c := after (send (spike_at 10) quiet 0) (set_weight 50 fresh) in
  weight_ c = 50 /\ Kplus_ c = 1.
Proof.
  unfold after, send, depress_. simpl.
  rewrite !Rmult_0_r, Rminus_0_r, Rmult_0_l.
  destruct (Rgt_dec (50 / 100) 0); lra.
Qed.

(** [traced] is the connection a first delivery to a quiet target leaves. *)
Example first_delivery_of_fresh :
  after (send (spike_at 10) quiet 0) fresh = traced.
Proof.
  unfold after, send, depress_, traced, fresh, set_Kplus_, set_weight. simpl.
  rewrite !Rmult_0_r, Rminus_0_r, Rmult_0_l.
  destruct (Rgt_dec (1 / 100) 0); [|lra].
  f_equal; lra.
Qed.

(** A delivery at 30 ms to the active target, from the default connection
    with its weight set to 50. *)
Lemma send_keeps_weight_bounds_witness :
  let c := run unit keep_base [call_set_weight unit 50] (STDPConnection_default base1) in
  (0 < Wmax_ c /\ 0 < lambda_ c /\ 0 <= alpha_ c /\ 0 <= mu_plus_ c /\ 0 <= mu_minus_ c)
  /\ 0 <= weight_ c <= Wmax_ c
  /\ 0 <= get_K_value active (get_stamp_ms (spike_at 30) - get_delay (ConnectionBase c))
  /\ 0 <= weight_ (after (send (spike_at 30) active 10) c) <= Wmax_ c.
Proof.
  intros c.
  assert (HW : 0 < Wmax_ c) by (simpl; lra).
  assert (Hl : 0 < lambda_ c) by (simpl; lra).
  assert (Ha : 0 <= alpha_ c) by (simpl; lra).
  assert (Hp : 0 <= mu_plus_ c) by (simpl; lra).
  assert (Hm : 0 <= mu_minus_ c) by (simpl; lra).
  assert (Hw : 0 <= weight_ c <= Wmax_ c) by (simpl; lra).
  assert (Hk : 0 <= get_K_value active
                      (get_stamp_ms (spike_at 30) - get_delay (ConnectionBase c)))
    by (simpl; lra).
  repeat split; try assumption; try apply Hw;
    apply (send_keeps_weight_bounds unit keep_base base1 [call_set_weight unit 50]
             (spike_at 30) active 10 HW Hl Ha Hp Hm Hw Hk).
Defined.

(** C2 fails as stated.  In binary64 the spike recorded at 0.1 ms lies in
    the window of a delivery at 0.9 ms with [t_lastspike] at 0.5 ms and a
    delay of 0.4 ms, and its [minus_dt] is 0.  The loop skips the record
    and leaves the weight at 1, where the fold of [facilitate_] over the
    window gives more than 1 (1.99 in exact arithmetic). *)
Lemma coincident_record_in_window :
  (in_window64 (0.5 - 0.4) (0.9 - 0.4) 0.1 = true
   /\ PrimFloat.eqb (minus_dt64 0.5 0.1 0.4) 0 = true)%float
  /\ get_history rounding (0.5 - 0.4) (0.9 - 0.4) = [mkhistentry 0.1 0]
  /\ weight_ (facilitation 0.5 0.4 (get_history rounding (0.5 - 0.4) (0.9 - 0.4))
                short_delay) = 1
  /\ 1 < fold_left
           (fun w h =>
              facilitate_ short_delay w
                (Kplus_ short_delay
                 * exp ((0.5 - (t_ h + 0.4)) / tau_plus_ short_delay)))
           (get_history rounding (0.5 - 0.4) (0.9 - 0.4)) (weight_ short_delay)
  /\ weight_ (after (send (spike_at 0.9) rounding 0.5) short_delay)
     = depress_ short_delay 1 0.
Proof.
  split; [split; vm_compute; reflexivity|].
  split; [reflexivity|].
  assert (Hz : 0.5 - (0.1 + 0.4) = 0) by lra.
  split; [|split].
  - cbn [get_history rounding facilitation t_].
    destruct (Req_dec_T (0.5 - (0.1 + 0.4)) 0); [reflexivity|contradiction].
  - cbn [get_history rounding fold_left t_]. rewrite Hz.
    unfold facilitate_, short_delay. simpl.
    replace (0 / 20) with 0 by lra. rewrite exp_0, pow_1_r.
    destruct (Rlt_dec _ 1); lra.
  - unfold after, send. cbn [fst get_stamp_ms spike_at]. simpl.
    destruct (Req_dec_T (0.5 - (0.1 + 0.4)) 0); [reflexivity|contradiction].
Qed.

(** A delivery at 30 ms to the busy target, with [t_lastspike] at 10 ms:
    the window is sorted and its three spikes are taken in turn, each
    facilitation starting from the weight the one before it left. *)
Lemma send_folds_window_witness :
  Sorted Rle (map t_ (get_history busy (10 - 1) (30 - 1)))
  /\ weight_ (after (send (spike_at 30) busy 10) traced)
     = depress_ traced
         (facilitate_ traced
            (facilitate_ traced
               (facilitate_ traced 1 (1 * exp ((10 - (12 + 1)) / 20)))
               (1 * exp ((10 - (25 + 1)) / 20)))
            (1 * exp ((10 - (27 + 1)) / 20)))
         0.2.
Proof.
  assert (Hs : Sorted Rle (map t_ (get_history busy (10 - 1) (30 - 1)))).
  { rewrite window_of_busy. simpl. repeat constructor; lra. }
  split; [exact Hs|].
  destruct (send_folds_window (spike_at 30) busy 10 traced) as (_ & Hw & _ & _).
  cbn [get_delay ConnectionBase traced fresh set_Kplus_ STDPConnection_default
       base1 get_stamp_ms spike_at] in Hw.
  rewrite window_of_busy, taken_of_busy in Hw. exact Hw.
Defined.

(** With [t_lastspike] at 10 ms and a delay of 1 ms, the record at 9 ms is
    coincident. *)
Lemma coincident_record_skipped_witness :
  10 - (t_ (mkhistentry 9 0) + 1) = 0
  /\ facilitation 10 1 [mkhistentry 5 0; mkhistentry 9 0; mkhistentry 25 0] traced
     = facilitation 10 1 [mkhistentry 5 0; mkhistentry 25 0] traced.
Proof.
  assert (H0 : 10 - (t_ (mkhistentry 9 0) + 1) = 0) by (simpl; lra).
  split; [exact H0|].
  exact (proj1 (proj2 (proj2
           (coincident_record_skipped 10 1 [mkhistentry 5 0] [mkhistentry 25 0]
              (mkhistentry 9 0) traced H0)))).
Defined.

(** A delivery at 10 ms to the quiet target: the window is empty. *)
Lemma send_advances_trace_witness :
  get_history quiet (0 - 1) (10 - 1) = []
  /\ Kplus_ (after (send (spike_at 10) quiet 0) traced) = 1 * exp ((0 - 10) / 20) + 1
  /\ weight_ (after (send (spike_at 10) quiet 0) traced)
     = depress_ traced 1 (get_K_value quiet (10 - 1)).
Proof.
  assert (He : get_history quiet (0 - 1) (10 - 1) = []) by reflexivity.
  split; [exact He|].
  destruct (send_advances_trace (spike_at 10) quiet 0 traced) as [HK Hw].
  split; [exact HK|exact (Hw He)].
Defined.

(** With the default parameters, [nw] is 0.51 for a weight of 50 and a
    trace of 2. *)
Lemma facilitate_computes_witness :
  0 < Wmax_ fresh /\ facilitate_ fresh 50 2 = 51.
Proof.
  assert (HW : 0 < Wmax_ fresh) by (simpl; lra).
  split; [exact HW|].
  destruct (facilitate_computes fresh 50 2 HW) as (_ & Hlt & _).
  simpl in Hlt. rewrite pow_1_r in Hlt. rewrite Hlt; lra.
Defined.

(** With the default parameters, [nw] is 0.49 for a weight of 50 and a
    trace of 2. *)
Lemma depress_computes_witness :
  0 < Wmax_ fresh /\ depress_ fresh 50 2 = 49.
Proof.
  assert (HW : 0 < Wmax_ fresh) by (simpl; lra).
  split; [exact HW|].
  destruct (depress_computes fresh 50 2 HW) as (_ & Hgt & _).
  simpl in Hgt. rewrite pow_1_r in Hgt. rewrite Hgt; lra.
Defined.

(** C9 fails as stated: [Wmax] is 100, and a weight of 200 with a zero
    trace is cut down to 100 by [facilitate_]; a weight of -1 is raised to 0
    by [depress_]. *)
Lemma zero_trace_clamped :
  0 < Wmax_ fresh
  /\ facilitate_ fresh 200 0 = 100 /\ facilitate_ fresh 200 0 <> 200
  /\ depress_ fresh (-1) 0 = 0 /\ depress_ fresh (-1) 0 <> -1.
Proof.
  assert (Hf : facilitate_ fresh 200 0 = 100).
  { unfold facilitate_; simpl. destruct (Rlt_dec _ _) as [H|H]; lra. }
  assert (Hd : depress_ fresh (-1) 0 = 0).
  { unfold depress_; simpl. destruct (Rgt_dec _ _) as [H|H]; lra. }
  rewrite Hf, Hd. simpl. repeat split; lra.
Qed.

(** A weight of 7 with the default parameters. *)
Lemma zero_trace_renormalises_witness :
  (0 < Wmax_ fresh /\ 0 <= mu_plus_ fresh /\ 0 <= mu_minus_ fresh
   /\ Rabs (alpha_ fresh * lambda_ fresh) <= 1 /\ 0 <= 7 <= Wmax_ fresh)
  /\ facilitate_ fresh 7 0 = 7 / 100 * 100
  /\ depress_ fresh 7 0 = 7 / 100 * 100.
Proof.
  assert (HW : 0 < Wmax_ fresh) by (simpl; lra).
  assert (Hp : 0 <= mu_plus_ fresh) by (simpl; lra).
  assert (Hm : 0 <= mu_minus_ fresh) by (simpl; lra).
  assert (Hs : Rabs (alpha_ fresh * lambda_ fresh) <= 1).
  { simpl. rewrite Rabs_pos_eq; lra. }
  assert (Hw : 0 <= 7 <= Wmax_ fresh) by (simpl; lra).
  destruct (zero_trace_renormalises fresh 7 HW Hp Hm Hs Hw) as [Hf Hd].
  split; [exact (conj HW (conj Hp (conj Hm (conj Hs Hw))))|].
  cbn [Wmax_ fresh STDPConnection_default] in Hf, Hd.
  destruct (Rlt_dec (7 / 100) 1) as [_|H]; [|exfalso; lra].
  destruct (Rgt_dec (7 / 100) 0) as [_|H]; [|exfalso; lra].
  exact (conj Hf Hd).
Defined.

(** C8 fails as stated: two connections that differ in the trace hand back
    the same dictionary, so the trace is not in it. *)
Lemma get_status_omits_trace :
  Kplus_ fresh <> Kplus_ traced
  /\ forall (sizeof_this : Z)
       (Connection_get_status : Connection -> Dictionary -> Dictionary)
       (d : Dictionary),
       snd (get_status sizeof_this Connection_get_status d fresh)
       = snd (get_status sizeof_this Connection_get_status d traced).
Proof.
  split; [simpl; lra|].
  intros sz bg d. reflexivity.
Qed.

(** C10 fails as stated.  In binary64, with a trace of 0, the argument of
    [std::exp] in the last line of [send] is at least 710 both for
    [tau_plus = -0.001] with a delivery at 10 ms after [t_lastspike = 0],
    and for the default [tau_plus = 20] with a delivery at 10 ms after
    [t_lastspike = 20000]; [std::exp] overflows there, the product with the
    trace is not a number, and neither is the trace the delivery leaves: it
    is not at least 0. *)
Lemma trace_not_a_number :
  (PrimFloat.leb 710 ((0 - 10) / (-0.001)) = true
   /\ PrimFloat.leb 710 ((20000 - 10) / 20) = true)%float
  /\ forall exp64 : float -> float,
       overflows exp64 ->
       (PrimFloat.is_nan (Kplus64 exp64 0 0 10 (-0.001)) = true
        /\ PrimFloat.leb 0 (Kplus64 exp64 0 0 10 (-0.001)) = false
        /\ PrimFloat.is_nan (Kplus64 exp64 0 20000 10 20) = true
        /\ PrimFloat.leb 0 (Kplus64 exp64 0 20000 10 20) = false)%float.
Proof.
  split; [split; vm_compute; reflexivity|].
  intros exp64 H. unfold Kplus64.
  rewrite !H by (vm_compute; reflexivity).
  repeat split; vm_compute; reflexivity.
Qed.

(** A change of the weight and a first delivery at 10 ms, both in time,
    and a second delivery at 30 ms. *)
Lemma trace_invariant_in_time_witness :
  well_timed unit keep_base
    [call_set_weight unit 50; call_send unit (spike_at 10) quiet 0]
    (STDPConnection_default base1)
  /\ 0 <= Kplus_
            (run unit keep_base
               [call_set_weight unit 50; call_send unit (spike_at 10) quiet 0]
               (STDPConnection_default base1))
  /\ 1 <= Kplus_
            (run unit keep_base
               ([call_set_weight unit 50; call_send unit (spike_at 10) quiet 0]
                ++ [call_send unit (spike_at 30) active 10])
               (STDPConnection_default base1)).
Proof.
  assert (H : well_timed unit keep_base
                [call_set_weight unit 50; call_send unit (spike_at 10) quiet 0]
                (STDPConnection_default base1)).
  { simpl. repeat split; lra. }
  destruct (trace_invariant_in_time unit keep_base base1 _ H)
    as (_ & _ & _ & H0 & H1).
  split; [exact H|]. split; [exact H0|].
  apply H1; simpl; lra.
Defined.

(** ** Instances of the further properties *)

Lemma lambda_only_readable : List.Forall (readable lambda_only) status_keys.
Proof.
  unfold status_keys, readable, lambda_only, names_weight.
  repeat constructor; intros z H;
    first [ rewrite lookup_singleton_eq in H
          | rewrite lookup_singleton_ne in H by discriminate ];
    discriminate.
Defined.

(** A weight of 500, far above [Wmax], with a trace of -3. *)
Lemma clamps_hold_everywhere_witness :
  0 < Wmax_ fresh
  /\ facilitate_ fresh 500 (-3) <= Wmax_ fresh /\ 0 <= depress_ fresh 500 (-3).
Proof.
  assert (HW : 0 < Wmax_ fresh) by (simpl; lra).
  exact (conj HW (clamps_hold_everywhere fresh 500 (-3) HW)).
Defined.

Lemma bounds_are_absorbing_witness :
  (0 < Wmax_ fresh /\ 0 <= lambda_ fresh /\ 0 <= alpha_ fresh /\ 0 <= 2)
  /\ facilitate_ fresh (Wmax_ fresh) 2 = Wmax_ fresh /\ depress_ fresh 0 2 = 0.
Proof.
  assert (HW : 0 < Wmax_ fresh) by (simpl; lra).
  assert (Hl : 0 <= lambda_ fresh) by (simpl; lra).
  assert (Ha : 0 <= alpha_ fresh) by (simpl; lra).
  assert (Hk : 0 <= 2) by lra.
  exact (conj (conj HW (conj Hl (conj Ha Hk)))
           (bounds_are_absorbing fresh 2 HW Hl Ha Hk)).
Defined.

Lemma update_monotone_in_trace_witness :
  (0 < Wmax_ fresh /\ 0 <= lambda_ fresh /\ 0 <= alpha_ fresh
   /\ 0 <= 50 <= Wmax_ fresh /\ 1 <= 2)
  /\ facilitate_ fresh 50 1 <= facilitate_ fresh 50 2
  /\ depress_ fresh 50 2 <= depress_ fresh 50 1.
Proof.
  assert (HW : 0 < Wmax_ fresh) by (simpl; lra).
  assert (Hl : 0 <= lambda_ fresh) by (simpl; lra).
  assert (Ha : 0 <= alpha_ fresh) by (simpl; lra).
  assert (Hw : 0 <= 50 <= Wmax_ fresh) by (simpl; lra).
  assert (Hk : 1 <= 2) by lra.
  exact (conj (conj HW (conj Hl (conj Ha (conj Hw Hk))))
           (update_monotone_in_trace fresh 50 1 2 HW Hl Ha Hw Hk)).
Defined.

(** A delivery to the active target from a connection whose weight was set
    to -5. *)
Lemma send_weight_never_negative_witness :
  0 < Wmax_ (set_weight (-5) traced)
  /\ 0 <= weight_ (after (send (spike_at 30) active 10) (set_weight (-5) traced)).
Proof.
  assert (HW : 0 < Wmax_ (set_weight (-5) traced)) by (simpl; lra).
  exact (conj HW
           (proj1 (send_weight_never_negative (spike_at 30) active 10
                     (set_weight (-5) traced) HW))).
Defined.

(** The loop over three records, from the weight 1. *)
Lemma facilitation_keeps_bounds_witness :
  (0 < Wmax_ traced /\ 0 <= lambda_ traced /\ 0 <= Kplus_ traced
   /\ 0 <= weight_ traced <= Wmax_ traced)
  /\ 0 <= weight_
            (facilitation 10 1
               [mkhistentry 12 0; mkhistentry 25 0; mkhistentry 27 0] traced)
       <= Wmax_ traced.
Proof.
  assert (HW : 0 < Wmax_ traced) by (simpl; lra).
  assert (Hl : 0 <= lambda_ traced) by (simpl; lra).
  assert (HK : 0 <= Kplus_ traced) by (simpl; lra).
  assert (Hw : 0 <= weight_ traced <= Wmax_ traced) by (simpl; lra).
  exact (conj (conj HW (conj Hl (conj HK Hw)))
           (proj1 (facilitation_keeps_bounds 10 1
                     [mkhistentry 12 0; mkhistentry 25 0; mkhistentry 27 0]
                     traced HW Hl HK Hw))).
Defined.

Lemma trace_grows_by_at_most_one_witness :
  (0 < tau_plus_ traced /\ 10 <= get_stamp_ms (spike_at 30) /\ 0 <= Kplus_ traced)
  /\ 1 <= Kplus_ (after (send (spike_at 30) active 10) traced) <= Kplus_ traced + 1.
Proof.
  assert (Ht : 0 < tau_plus_ traced) by (simpl; lra).
  assert (Hs : 10 <= get_stamp_ms (spike_at 30)) by (simpl; lra).
  assert (HK : 0 <= Kplus_ traced) by (simpl; lra).
  exact (conj (conj Ht (conj Hs HK))
           (trace_grows_by_at_most_one (spike_at 30) active 10 traced Ht Hs HK)).
Defined.


(** A change of the weight and a delivery. *)
Lemma run_keeps_parameters_witness :
  List.Forall (keeps_status unit)
    [call_set_weight unit 50; call_send unit (spike_at 10) quiet 0]
  /\ parameters
       (run unit keep_base
          [call_set_weight unit 50; call_send unit (spike_at 10) quiet 0] fresh)
     = parameters fresh.
Proof.
  assert (H : List.Forall (keeps_status unit)
                [call_set_weight unit 50; call_send unit (spike_at 10) quiet 0]).
  { repeat constructor. }
  exact (conj H (proj1 (run_keeps_parameters unit keep_base _ fresh H))).
Defined.

(** Two deliveries, to the quiet and to the active target. *)
Lemma run_of_sends_keeps_bounds_witness :
  List.Forall (supplied_send unit (get_delay (ConnectionBase fresh)))
    [call_send unit (spike_at 10) quiet 0; call_send unit (spike_at 30) active 10]
  /\ (0 < Wmax_ fresh /\ 0 <= lambda_ fresh /\ 0 <= alpha_ fresh
      /\ 0 <= Kplus_ fresh /\ 0 <= weight_ fresh <= Wmax_ fresh)
  /\ 0 <= weight_
            (run unit keep_base
               [call_send unit (spike_at 10) quiet 0;
                call_send unit (spike_at 30) active 10] fresh)
       <= Wmax_ fresh.
Proof.
  assert (H : List.Forall (supplied_send unit (get_delay (ConnectionBase fresh)))
                [call_send unit (spike_at 10) quiet 0;
                 call_send unit (spike_at 30) active 10]).
  { repeat constructor; simpl; lra. }
  assert (HW : 0 < Wmax_ fresh) by (simpl; lra).
  assert (Hl : 0 <= lambda_ fresh) by (simpl; lra).
  assert (Ha : 0 <= alpha_ fresh) by (simpl; lra).
  assert (HK : 0 <= Kplus_ fresh) by (simpl; lra).
  assert (Hw : 0 <= weight_ fresh <= Wmax_ fresh) by (simpl; lra).
  exact (conj H (conj (conj HW (conj Hl (conj Ha (conj HK Hw))))
           (proj1 (run_of_sends_keeps_bounds unit keep_base _ fresh
                     H HW Hl Ha HK Hw)))).
Defined.

(** The dictionary with a new step size holds no weight. *)
Lemma set_status_absent_key_witness :
  lambda_only !! names_weight = None
  /\ weight_ (after (set_status unit keep_base lambda_only tt) fresh) = weight_ fresh.
Proof.
  assert (H : lambda_only !! names_weight = None) by reflexivity.
  exact (conj H (proj1 (set_status_absent_key unit keep_base lambda_only tt fresh) H)).
Defined.

Lemma set_status_applies_witness :
  keep_base lambda_only tt (ConnectionBase fresh) = (base1, Returns tt)
  /\ List.Forall (readable lambda_only) status_keys
  /\ lambda_ (after (set_status unit keep_base lambda_only tt) fresh) = 0.02.
Proof.
  assert (Hb : keep_base lambda_only tt (ConnectionBase fresh) = (base1, Returns tt))
    by reflexivity.
  split; [exact Hb|]. split; [exact lambda_only_readable|].
  unfold after.
  rewrite (set_status_applies unit keep_base lambda_only tt fresh base1 Hb
             lambda_only_readable).
  reflexivity.
Defined.

Lemma set_status_base_raises_witness :
  refuse_base lambda_only tt (ConnectionBase fresh) = (base1, Throws)
  /\ snd (set_status unit refuse_base lambda_only tt fresh) = Throws
  /\ lambda_ (after (set_status unit refuse_base lambda_only tt) fresh) = 0.01.
Proof.
  assert (Hb : refuse_base lambda_only tt (ConnectionBase fresh) = (base1, Throws))
    by reflexivity.
  destruct (set_status_base_raises unit refuse_base lambda_only tt fresh base1 Hb)
    as (Ht & Hc & _).
  split; [exact Hb|]. split; [exact Ht|].
  rewrite Hc. reflexivity.
Defined.

Lemma import_then_export_witness :
  keep_base lambda_only tt (ConnectionBase fresh) = (base1, Returns tt)
  /\ In "lambda" status_keys
  /\ lambda_only !! "lambda" = Some (DoubleDatum 0.02)
  /\ exists dict : Dictionary,
       snd (get_status 96 (fun _ d => d) ∅
              (after (set_status unit keep_base lambda_only tt) fresh))
       = Returns dict
       /\ dict !! "lambda" = Some (DoubleDatum 0.02).
Proof.
  assert (Hb : keep_base lambda_only tt (ConnectionBase fresh) = (base1, Returns tt))
    by reflexivity.
  assert (Hn : In "lambda" status_keys) by (simpl; tauto).
  assert (Hx : lambda_only !! "lambda" = Some (DoubleDatum 0.02)) by reflexivity.
  exact (conj Hb (conj Hn (conj Hx
           (import_then_export 96 (fun _ d => d) unit keep_base lambda_only ∅ tt
              fresh base1 "lambda" 0.02 Hb lambda_only_readable Hn Hx)))).
Defined.

(** The key [delay] is none of the eight. *)
Lemma get_status_other_keys_witness :
  ~ In "delay" status_keys /\ "delay" <> names_size_of
  /\ exists dict : Dictionary,
       snd (get_status 96 (fun _ d => d) lambda_only fresh) = Returns dict
       /\ dict !! "delay" = lambda_only !! "delay".
Proof.
  assert (Hn : ~ In "delay" status_keys).
  { unfold status_keys, names_weight. simpl. intuition discriminate. }
  assert (Hs : "delay" <> names_size_of) by discriminate.
  exact (conj Hn (conj Hs
           (get_status_other_keys 96 (fun _ d => d) lambda_only fresh "delay" Hn Hs))).
Defined.

Lemma set_status_weight_only_witness :
  keep_base {[ names_weight := DoubleDatum 50 ]} tt (ConnectionBase fresh)
  = (base1, Returns tt)
  /\ set_status unit keep_base {[ names_weight := DoubleDatum 50 ]} tt fresh
     = (set_ConnectionBase base1 (set_weight 50 fresh), Returns tt).
Proof.
  assert (Hb : keep_base {[ names_weight := DoubleDatum 50 ]} tt (ConnectionBase fresh)
               = (base1, Returns tt)) by reflexivity.
  exact (conj Hb (set_status_weight_only unit keep_base 50 tt fresh base1 Hb)).
Defined.
